(** * SensorHost: a shallow embedding of [src/models/sensor_host.py]

    The [SensorHost] component polls a list of sensors, writes each sensor's
    latest readings to [<temp_dir>/<sensor>/current.json] and serves the
    directory tree over HTTP.  This development embeds the methods of the
    class as functions in a state-and-exception monad over

    - the instance fields ([SensorHost], the Python [self]), and
    - the part of the operating system the methods act on ([World]): the file
      system, the listening sockets, the serving threads, the asyncio tasks
      and the logger.

    Modelling conventions:
    - protobuf numbers (doubles) are rationals [Q]; [int(x)] truncates
      towards zero;
    - paths are compared textually (no symbolic links, no normalisation);
      a path is taken to exist when it, or anything below it, is recorded;
    - [shutil.rmtree(..., ignore_errors=True)] removes the whole tree;
    - one poll pass runs without interleaving with [reconfigure];
    - the base classes of [SensorHost] are the framework's: the one call into
      them that can fail, [super().reconfigure], is taken by its outcome,
      which every statement leaves open. *)

From Stdlib Require Import ZArith QArith Ascii String List Lia.
From stdpp Require Import base gmap sets list strings pretty.

Local Close Scope Q_scope.
Local Open Scope Z_scope.
Local Open Scope stdpp_scope.
Local Set Warnings "-clear-no-such-hyp".

(** ** Exceptions and results *)

Inductive exn : Type :=
| ValueError (msg : string)
| TypeError (msg : string)
| OverflowError (msg : string)
| OSError (msg : string)
| AttributeError (msg : string).

Definition str_exn (e : exn) : string :=
  match e with
  | ValueError m | TypeError m | OverflowError m | OSError m
  | AttributeError m => m
  end.

Inductive result (A : Type) : Type :=
| Ok (a : A)
| Raise (e : exn).
Arguments Ok {A} a.
Arguments Raise {A} e.

Definition is_raise {A : Type} (r : result A) : bool :=
  match r with Ok _ => false | Raise _ => true end.

(** ** Configuration values (protobuf [Struct]) *)

#[warnings="-register-all"]
Inductive Value : Type :=
| VNull
| VNumber (q : Q)
| VString (s : string)
| VBool (b : bool)
| VList (l : list Value).

Definition number_value (v : Value) : Q :=
  match v with VNumber q => q | _ => 0%Q end.

Definition string_value (v : Value) : string :=
  match v with VString s => s | _ => "" end.

Definition list_value (v : Value) : list Value :=
  match v with VList l => l | _ => [] end.

Record ComponentConfig : Type := mkConfig {
  fields : gmap string Value
}.

(** [config.attributes.fields[k]]: a missing key reads as the unset value. *)
Definition field (config : ComponentConfig) (k : string) : Value :=
  default VNull (fields config !! k).

Definition has_field (config : ComponentConfig) (k : string) : bool :=
  bool_decide (is_Some (fields config !! k)).

(** Python's [int(x)] on a finite float: truncation towards zero. *)
Definition int (x : Q) : Z := Z.quot (Qnum x) (Z.pos (Qden x)).

Definition Qlt_bool (x y : Q) : bool := negb (Qle_bool y x).

(** ** [validate_config] *)

Definition validate_config (config : ComponentConfig)
  : result (list string * list string) :=
  if negb (has_field config "sensors") then
    Raise (ValueError "'sensors' attribute is required")
  else
    let sensor_names := list_value (field config "sensors") in
    if Nat.eqb (length sensor_names) 0 then
      Raise (ValueError "At least one sensor must be specified")
    else if negb (has_field config "port") then
      Raise (ValueError "'port' attribute is required")
    else
      let port := number_value (field config "port") in
      if Qle_bool port 0 || Qlt_bool 65535 port then
        Raise (ValueError "Port must be between 1 and 65535")
      else
        let required_deps := map string_value sensor_names in
        Ok (required_deps, []).

(** ** Paths *)

Definition slash : ascii := "/"%char.

Definition is_slash (c : ascii) : bool := bool_decide (c = slash).

Definition starts_with_slash (s : string) : bool :=
  match s with String c _ => is_slash c | EmptyString => false end.

Fixpoint ends_with_slash (s : string) : bool :=
  match s with
  | EmptyString => false
  | String c EmptyString => is_slash c
  | String _ r => ends_with_slash r
  end.

(** [os.path.join(a, b)] *)
Definition os_path_join (a b : string) : string :=
  if starts_with_slash b then b
  else if bool_decide (a = "") || ends_with_slash a then a +:+ b
  else a +:+ "/" +:+ b.

Fixpoint contains_slash (s : string) : bool :=
  match s with
  | EmptyString => false
  | String c r => is_slash c || contains_slash r
  end.

Fixpoint all_slashes (s : string) : bool :=
  match s with
  | EmptyString => true
  | String c r => is_slash c && all_slashes r
  end.

(** [p[:p.rfind('/') + 1]] *)
Fixpoint upto_last_slash (p : string) : string :=
  match p with
  | EmptyString => ""
  | String c r => if contains_slash p then String c (upto_last_slash r) else ""
  end.

(** [s.rstrip('/')] *)
Fixpoint rstrip_slash (s : string) : string :=
  match s with
  | EmptyString => ""
  | String c r =>
      let r' := rstrip_slash r in
      if is_slash c && bool_decide (r' = "") then "" else String c r'
  end.

(** [os.path.dirname(p)] *)
Definition os_path_dirname (p : string) : string :=
  let head := upto_last_slash p in
  if all_slashes head then head else rstrip_slash head.

(** [p] read as a directory prefix: with exactly one trailing separator. *)
Definition as_dir (p : string) : string :=
  if ends_with_slash p then p else p +:+ "/".

(** [q] is [p] itself or lies below the directory [p]. *)
Definition within (p q : string) : Prop :=
  q = p ∨ String.prefix (as_dir p) q = true.

Global Instance within_dec p q : Decision (within p q).
Proof. unfold within. apply _. Defined.

(** ** Sensors and their readings *)

(** A readings mapping, represented by what
    [json.dump(readings, f, indent=2, default=str)] does with it: it writes
    [text] in full, or writes [partial] and raises. *)
Inductive Readings : Type :=
| JsonOk (text : string)
| JsonFail (partial : string) (e : exn).

(** The collaborator: [sensor.name] and [await sensor.get_readings()], whose
    outcome may change from one call to the next (indexed by the clock). *)
Record Sensor : Type := mkSensor {
  name : string;
  get_readings : nat → result Readings
}.

(** ** The world outside the instance *)

Inductive Event : Type :=
| EvFetch (sensor : string)
| EvOpen (path : string)
| EvWrite (path text : string)
| EvReplace (src dst : string)
| EvMkdtemp (path : string)
| EvMakedirs (path : string)
| EvRmtree (path : string)
| EvBind (srv : nat) (port : Z)
| EvThreadStart (thr srv : nat)
| EvShutdown (srv : nat)
| EvServerClose (srv : nat)
| EvJoin (thr : nat)
| EvCreateTask (task : nat)
| EvCancel (task : nat)
| EvSleep (seconds : Q).

Inductive Level : Type := INFO | WARNING | ERROR.

Record World : Type := mkWorld {
  dirs : gset string;            (* existing directories *)
  files : gmap string string;    (* regular files and their content *)
  unavailable : gset Z;          (* ports this process cannot bind *)
  sockets : gmap nat Z;          (* listening HTTPServer objects and their port *)
  threads : gmap nat nat;        (* alive threads and the server they run *)
  lingers : nat → bool;          (* is the thread still alive right after shutdown() *)
  tasks : gset nat;              (* asyncio tasks that are not done *)
  next_id : nat;                 (* identity of the next object created *)
  tmp_names : nat → string;      (* the random names tempfile draws *)
  tmp_pos : nat;
  clock : nat;                   (* number of awaits completed *)
  trace : list Event;            (* effects performed, oldest first *)
  log : list (Level * string)    (* self.logger *)
}.

Definition set_fs (d : gset string) (f : gmap string string) (w : World) : World :=
  mkWorld d f (unavailable w) (sockets w) (threads w) (lingers w) (tasks w)
    (next_id w) (tmp_names w) (tmp_pos w) (clock w) (trace w) (log w).

Definition set_sockets (s : gmap nat Z) (w : World) : World :=
  mkWorld (dirs w) (files w) (unavailable w) s (threads w) (lingers w) (tasks w)
    (next_id w) (tmp_names w) (tmp_pos w) (clock w) (trace w) (log w).

Definition set_threads (t : gmap nat nat) (w : World) : World :=
  mkWorld (dirs w) (files w) (unavailable w) (sockets w) t (lingers w) (tasks w)
    (next_id w) (tmp_names w) (tmp_pos w) (clock w) (trace w) (log w).

Definition set_tasks (t : gset nat) (w : World) : World :=
  mkWorld (dirs w) (files w) (unavailable w) (sockets w) (threads w) (lingers w) t
    (next_id w) (tmp_names w) (tmp_pos w) (clock w) (trace w) (log w).

Definition set_next_id (n : nat) (w : World) : World :=
  mkWorld (dirs w) (files w) (unavailable w) (sockets w) (threads w) (lingers w)
    (tasks w) n (tmp_names w) (tmp_pos w) (clock w) (trace w) (log w).

Definition set_tmp_pos (n : nat) (w : World) : World :=
  mkWorld (dirs w) (files w) (unavailable w) (sockets w) (threads w) (lingers w)
    (tasks w) (next_id w) (tmp_names w) n (clock w) (trace w) (log w).

Definition tick (w : World) : World :=
  mkWorld (dirs w) (files w) (unavailable w) (sockets w) (threads w) (lingers w)
    (tasks w) (next_id w) (tmp_names w) (tmp_pos w) (S (clock w)) (trace w) (log w).

Definition emit (e : Event) (w : World) : World :=
  mkWorld (dirs w) (files w) (unavailable w) (sockets w) (threads w) (lingers w)
    (tasks w) (next_id w) (tmp_names w) (tmp_pos w) (clock w) (trace w ++ [e]) (log w).

Definition add_log (lvl : Level) (msg : string) (w : World) : World :=
  mkWorld (dirs w) (files w) (unavailable w) (sockets w) (threads w) (lingers w)
    (tasks w) (next_id w) (tmp_names w) (tmp_pos w) (clock w) (trace w)
    (log w ++ [(lvl, msg)]).

(** *** File system *)

Definition paths (w : World) : gset string := dirs w ∪ dom (files w).

(** [os.path.exists(p)] *)
Definition os_path_exists (w : World) (p : string) : bool :=
  bool_decide (set_Exists (within p) (paths w)).

(** [shutil.rmtree(p, ignore_errors=True)] *)
Definition rmtree (p : string) (w : World) : World :=
  emit (EvRmtree p)
    (set_fs (filter (λ q, ¬ within p q) (dirs w))
            (filter (λ kv, ¬ within p kv.1) (files w)) w).

(** [os.makedirs(p, exist_ok=True)] *)
Definition makedirs (p : string) (w : World) : result unit * World :=
  if bool_decide (p ∈ dom (files w)) then
    (Raise (OSError ("File exists: " +:+ p)), w)
  else
    (Ok tt, emit (EvMakedirs p) (set_fs ({[p]} ∪ dirs w) (files w) w)).

Definition TMP_MAX : nat := Z.to_nat 10000.

(** The candidate loop of [tempfile.mkdtemp]: draw names until one is free. *)
Fixpoint mkdtemp_draw (tries pos : nat) (dir pre : string) (w : World)
  : option (string * nat) :=
  match tries with
  | O => None
  | S n =>
      let file := os_path_join dir (pre +:+ tmp_names w pos) in
      if os_path_exists w file then mkdtemp_draw n (S pos) dir pre w
      else Some (file, S pos)
  end.

(** [tempfile.mkdtemp(dir=dir, prefix=pre)] *)
Definition mkdtemp (dir pre : string) (w : World) : result string * World :=
  if negb (bool_decide (dir ∈ dirs w)) then
    (Raise (OSError ("No such file or directory: " +:+ dir)), w)
  else
    match mkdtemp_draw TMP_MAX (tmp_pos w) dir pre w with
    | None => (Raise (OSError "No usable temporary directory name found"), w)
    | Some (file, pos) =>
        (Ok file,
         emit (EvMkdtemp file)
           (set_tmp_pos pos (set_fs ({[file]} ∪ dirs w) (files w) w)))
    end.

(** [open(p, 'w')]: creates or truncates [p]. *)
Definition open_w (p : string) (w : World) : result unit * World :=
  if negb (bool_decide (os_path_dirname p ∈ dirs w)) then
    (Raise (OSError ("No such file or directory: " +:+ p)), w)
  else if bool_decide (p ∈ dirs w) then
    (Raise (OSError ("Is a directory: " +:+ p)), w)
  else
    (Ok tt, emit (EvOpen p) (set_fs (dirs w) (<[p := ""]> (files w)) w)).

(** [f.write(text)] on the file opened at [p]. *)
Definition write (p text : string) (w : World) : World :=
  emit (EvWrite p text) (set_fs (dirs w) (<[p := text]> (files w)) w).

(** [os.replace(src, dst)] *)
Definition os_replace (src dst : string) (w : World) : result unit * World :=
  match files w !! src with
  | None => (Raise (OSError ("No such file or directory: " +:+ src)), w)
  | Some content =>
      if bool_decide (dst ∈ dirs w) then
        (Raise (OSError ("Is a directory: " +:+ dst)), w)
      else
        (Ok tt,
         emit (EvReplace src dst)
           (set_fs (dirs w) (<[dst := content]> (delete src (files w))) w))
  end.

(** *** Sockets, threads and tasks *)

(** [HTTPServer(('0.0.0.0', port), handler)]: binds and listens. *)
Definition HTTPServer (port : Z) (w : World) : result nat * World :=
  if negb ((0 <=? port) && (port <=? 65535)) then
    (Raise (OverflowError "bind(): port must be 0-65535."), w)
  else if negb (port =? 0)
          && (bool_decide (port ∈ unavailable w)
              || bool_decide (port ∈ (map_img (sockets w) : gset Z))) then
    (Raise (OSError "Address already in use"), w)
  else
    let s := next_id w in
    (Ok s, emit (EvBind s port)
             (set_next_id (S s) (set_sockets (<[s := port]> (sockets w)) w))).

(** [threading.Thread(target=server.serve_forever, daemon=True)] and [start()] *)
Definition thread_start (srv : nat) (w : World) : nat * World :=
  let t := next_id w in
  (t, emit (EvThreadStart t srv)
        (set_next_id (S t) (set_threads (<[t := srv]> (threads w)) w))).

(** [server.shutdown()]: [serve_forever] returns; its thread ends now or
    shortly after. *)
Definition server_shutdown (srv : nat) (w : World) : World :=
  emit (EvShutdown srv)
    (set_threads
       (filter (λ kv, kv.2 ≠ srv ∨ lingers w kv.1 = true) (threads w)) w).

(** [server.server_close()]: the listening socket is closed. *)
Definition server_close (srv : nat) (w : World) : World :=
  emit (EvServerClose srv) (set_sockets (delete srv (sockets w)) w).

(** [thread.is_alive()] *)
Definition is_alive (t : nat) (w : World) : bool :=
  bool_decide (is_Some (threads w !! t)).

(** [thread.join(timeout=1.0)]: a thread whose server still listens outlives
    the timeout. *)
Definition thread_join (t : nat) (w : World) : World :=
  emit (EvJoin t)
    (match threads w !! t with
     | Some srv =>
         if bool_decide (is_Some (sockets w !! srv)) then w
         else set_threads (delete t (threads w)) w
     | None => w
     end).

(** [loop.create_task(coro)] *)
Definition create_task (w : World) : nat * World :=
  let t := next_id w in
  (t, emit (EvCreateTask t) (set_next_id (S t) (set_tasks ({[t]} ∪ tasks w) w))).

(** [task.done()] *)
Definition task_done (t : nat) (w : World) : bool :=
  negb (bool_decide (t ∈ tasks w)).

(** [task.cancel()] *)
Definition task_cancel (t : nat) (w : World) : World :=
  emit (EvCancel t) (set_tasks (tasks w ∖ {[t]}) w).

(** [await asyncio.sleep(seconds)] *)
Definition asyncio_sleep (seconds : Q) (w : World) : World :=
  tick (emit (EvSleep seconds) w).

(** ** The instance *)

Record SensorHost : Type := mkHost {
  sensors : list Sensor;
  port : Z;
  refresh_interval : Q;
  server : option nat;
  server_thread : option nat;
  refresh_task : option nat;
  temp_dir : option string;
  running : bool
}.

Definition __init__ : SensorHost :=
  mkHost [] 8080 5%Q None None None None false.

Definition set_sensors (x : list Sensor) (h : SensorHost) : SensorHost :=
  mkHost x (port h) (refresh_interval h) (server h) (server_thread h)
    (refresh_task h) (temp_dir h) (running h).

Definition set_port (x : Z) (h : SensorHost) : SensorHost :=
  mkHost (sensors h) x (refresh_interval h) (server h) (server_thread h)
    (refresh_task h) (temp_dir h) (running h).

Definition set_refresh_interval (x : Q) (h : SensorHost) : SensorHost :=
  mkHost (sensors h) (port h) x (server h) (server_thread h)
    (refresh_task h) (temp_dir h) (running h).

Definition set_server (x : option nat) (h : SensorHost) : SensorHost :=
  mkHost (sensors h) (port h) (refresh_interval h) x (server_thread h)
    (refresh_task h) (temp_dir h) (running h).

Definition set_server_thread (x : option nat) (h : SensorHost) : SensorHost :=
  mkHost (sensors h) (port h) (refresh_interval h) (server h) x
    (refresh_task h) (temp_dir h) (running h).

Definition set_refresh_task (x : option nat) (h : SensorHost) : SensorHost :=
  mkHost (sensors h) (port h) (refresh_interval h) (server h) (server_thread h)
    x (temp_dir h) (running h).

Definition set_temp_dir (x : option string) (h : SensorHost) : SensorHost :=
  mkHost (sensors h) (port h) (refresh_interval h) (server h) (server_thread h)
    (refresh_task h) x (running h).

Definition set_running (x : bool) (h : SensorHost) : SensorHost :=
  mkHost (sensors h) (port h) (refresh_interval h) (server h) (server_thread h)
    (refresh_task h) (temp_dir h) x.

(** ** The monad of methods: state ([self] and the world) and exceptions.
    As in Python, the changes made before an exception is raised persist. *)

Definition M (A : Type) : Type :=
  SensorHost → World → result A * SensorHost * World.

Definition ret {A : Type} (a : A) : M A := λ h w, (Ok a, h, w).

Definition bind {A B : Type} (m : M A) (k : A → M B) : M B :=
  λ h w,
    match m h w with
    | (Ok a, h', w') => k a h' w'
    | (Raise e, h', w') => (Raise e, h', w')
    end.

Definition raise {A : Type} (e : exn) : M A := λ h w, (Raise e, h, w).

(** [try: body  except Exception as e: handler e] *)
Definition try_except {A : Type} (body : M A) (handler : exn → M A) : M A :=
  λ h w,
    match body h w with
    | (Ok a, h', w') => (Ok a, h', w')
    | (Raise e, h', w') => handler e h' w'
    end.

Definition self {A : Type} (f : SensorHost → A) : M A := λ h w, (Ok (f h), h, w).
Definition assign (f : SensorHost → SensorHost) : M unit := λ h w, (Ok tt, f h, w).
Definition env {A : Type} (f : World → A) : M A := λ h w, (Ok (f w), h, w).
Definition effect (f : World → World) : M unit := λ h w, (Ok tt, h, f w).
Definition call {A : Type} (f : World → result A * World) : M A :=
  λ h w, let '(r, w') := f w in (r, h, w').
Definition alloc {A : Type} (f : World → A * World) : M A :=
  λ h w, let '(a, w') := f w in (Ok a, h, w').

Declare Scope host_scope.
Delimit Scope host_scope with host.
Bind Scope host_scope with M.
Notation "x <- m ;; k" := (bind m (λ x, k))
  (at level 100, m at next level, right associativity) : host_scope.
Notation "m ;; k" := (bind m (λ _, k))
  (at level 100, right associativity) : host_scope.
Local Open Scope host_scope.

(** [for x in l: body x] *)
Fixpoint for_each {A : Type} (l : list A) (body : A → M unit) : M unit :=
  match l with
  | [] => ret tt
  | x :: rest => body x ;; for_each rest body
  end.

Definition logger (lvl : Level) (msg : string) : M unit := effect (add_log lvl msg).

(** Truthiness of an optional string field: [None] and [''] are false. *)
Definition truthy (s : option string) : bool :=
  match s with Some s => negb (bool_decide (s = "")) | None => false end.

(** ** Methods of [SensorHost] *)

(** [_setup_temp_directory] *)
Definition _setup_temp_directory : M unit :=
  old <- self temp_dir ;;
  (if truthy old then effect (rmtree (default "" old)) else ret tt) ;;
  d <- call (mkdtemp "/dev/shm" "sensor_host_") ;;
  assign (set_temp_dir (Some d)) ;;
  ss <- self sensors ;;
  for_each ss (λ sensor,
    root <- self temp_dir ;;
    let sensor_dir := os_path_join (default "" root) (name sensor) in
    call (makedirs sensor_dir)) ;;
  root <- self temp_dir ;;
  logger INFO ("Created temp directory: " +:+ default "" root).

(** [_start_server] *)
Definition _start_server : M unit :=
  s <- self server ;;
  match s with
  | Some _ => ret tt
  | None =>
      try_except
        (p <- self port ;;
         srv <- call (HTTPServer p) ;;
         assign (set_server (Some srv)) ;;
         t <- alloc (thread_start srv) ;;
         assign (set_server_thread (Some t)) ;;
         logger INFO ("HTTP server started on port " +:+ pretty p))
        (λ e,
           logger ERROR ("Failed to start HTTP server: " +:+ str_exn e) ;;
           raise e)
  end.

(** [_stop_server] *)
Definition _stop_server : M unit :=
  t <- self refresh_task ;;
  match t with
  | Some t =>
      finished <- env (task_done t) ;;
      if negb finished then
        effect (task_cancel t) ;;
        assign (set_refresh_task None)
      else ret tt
  | None => ret tt
  end ;;
  s <- self server ;;
  match s with
  | Some s =>
      effect (server_shutdown s) ;;
      effect (server_close s) ;;
      assign (set_server None)
  | None => ret tt
  end ;;
  th <- self server_thread ;;
  match th with
  | Some th =>
      alive <- env (is_alive th) ;;
      if alive then
        effect (thread_join th) ;;
        assign (set_server_thread None)
      else ret tt
  | None => ret tt
  end ;;
  d <- self temp_dir ;;
  present <- env (λ w, os_path_exists w (default "" d)) ;;
  (if truthy d && present then
     effect (rmtree (default "" d)) ;;
     assign (set_temp_dir None)
   else ret tt) ;;
  assign (set_running false) ;;
  logger INFO "HTTP server stopped and resources cleaned up".

(** [_start_refresh_task]; the logged line leaves out the float it formats. *)
Definition _start_refresh_task : M unit :=
  t <- self refresh_task ;;
  match t with
  | Some t =>
      finished <- env (task_done t) ;;
      if negb finished then effect (task_cancel t) else ret tt
  | None => ret tt
  end ;;
  task <- alloc create_task ;;
  assign (set_refresh_task (Some task)) ;;
  logger INFO "Started refresh task".

(** [_update_sensor_reading(sensor)] *)
Definition _update_sensor_reading (sensor : Sensor) : M unit :=
  try_except
    (now <- env clock ;;
     effect (λ w, tick (emit (EvFetch (name sensor)) w)) ;;
     readings <- call (λ w, (get_readings sensor now, w)) ;;
     root <- self temp_dir ;;
     match root with
     | None => raise (TypeError "expected str, bytes or os.PathLike object, not NoneType")
     | Some root =>
         let sensor_dir := os_path_join root (name sensor) in
         let temp_file := os_path_join sensor_dir "next.json" in
         let current_file := os_path_join sensor_dir "current.json" in
         call (open_w temp_file) ;;
         match readings with
         | JsonOk text => effect (write temp_file text)
         | JsonFail partial e => effect (write temp_file partial) ;; raise e
         end ;;
         call (os_replace temp_file current_file)
     end)
    (λ e,
       logger ERROR ("Failed to get readings from sensor " +:+ name sensor
                     +:+ ": " +:+ str_exn e) ;;
       raise e).

(** [_update_all_sensor_readings] *)
Definition _update_all_sensor_readings : M unit :=
  ss <- self sensors ;;
  for_each ss (λ sensor,
    try_except (_update_sensor_reading sensor)
      (λ e, logger ERROR ("Failed to update readings for sensor "
                          +:+ name sensor +:+ ": " +:+ str_exn e))).

(** [_refresh_readings_loop], run as the task [me] for at most [fuel] turns
    of the [while].  A cancelled task receives [CancelledError] at its
    [await] and leaves the loop. *)
Fixpoint _refresh_readings_loop (fuel me : nat) : M unit :=
  match fuel with
  | O => ret tt
  | S n =>
      r <- self running ;;
      if r then
        i <- self refresh_interval ;;
        effect (asyncio_sleep i) ;;
        cancelled <- env (task_done me) ;;
        if cancelled then ret tt
        else
          try_except _update_all_sensor_readings
            (λ e, logger ERROR ("Error in refresh loop: " +:+ str_exn e)) ;;
          _refresh_readings_loop n me
      else ret tt
  end.

(** [super().reconfigure(config, dependencies)].  The classes [SensorHost]
    inherits from belong to the framework, not to the repository, so the call
    is taken by its outcome [base], a parameter of the model: where no base
    class defines [reconfigure] the attribute lookup raises [AttributeError];
    where one defines it (as a logging no-op) the call returns.  Either way
    it leaves the instance and the world alone. *)
Definition super_reconfigure (base : result unit) : M unit :=
  λ h w, (base, h, w).

(** [reconfigure(config, dependencies)]; the dependencies are keyed by the
    sensor name their resource name carries, and [base] is the outcome of
    the closing call of the framework's own [reconfigure]. *)
Definition reconfigure (base : result unit) (config : ComponentConfig)
    (dependencies : gmap string Sensor) : M unit :=
  _stop_server ;;
  let sensor_names := list_value (field config "sensors") in
  assign (set_port (int (number_value (field config "port")))) ;;
  (if has_field config "refresh" then
     assign (set_refresh_interval (number_value (field config "refresh"))) ;;
     i <- self refresh_interval ;;
     if Qle_bool i 0 then assign (set_refresh_interval 5%Q) else ret tt
   else assign (set_refresh_interval 5%Q)) ;;
  assign (set_sensors []) ;;
  for_each sensor_names (λ sensor_value,
    let sensor_name := string_value sensor_value in
    match dependencies !! sensor_name with
    | Some sensor =>
        ss <- self sensors ;;
        assign (set_sensors (ss ++ [sensor]))
    | None =>
        logger WARNING ("Sensor '" +:+ sensor_name +:+ "' not found in dependencies")
    end) ;;
  _setup_temp_directory ;;
  _start_server ;;
  _start_refresh_task ;;
  assign (set_running true) ;;
  ss <- self sensors ;;
  p <- self port ;;
  logger INFO ("SensorHost configured with " +:+ pretty (length ss)
               +:+ " sensors on port " +:+ pretty p) ;;
  super_reconfigure base.

(** [repr(list(command.keys()))], for keys without quotes or escapes. *)
Definition repr_keys (keys : list string) : string :=
  "[" +:+ String.concat ", " (map (λ k, "'" +:+ k +:+ "'") keys) +:+ "]".

(** [do_command(command)]; the mapping is kept in insertion order. *)
Definition do_command (command : list (string * Value))
  : M (list (string * Value)) :=
  if bool_decide ("status" ∈ command.*1) then
    r <- self running ;;
    p <- self port ;;
    ss <- self sensors ;;
    i <- self refresh_interval ;;
    d <- self temp_dir ;;
    ret [("running", VBool r);
         ("port", VNumber (inject_Z p));
         ("sensors", VList (map (λ sensor, VString (name sensor)) ss));
         ("refresh_interval", VNumber i);
         ("temp_dir", VString (if truthy d then default "" d else ""))]
  else if bool_decide ("refresh_now" ∈ command.*1) then
    r <- self running ;;
    if r then
      _update_all_sensor_readings ;;
      ret [("message", VString "Sensor readings refreshed")]
    else
      ret [("error", VString "SensorHost not running")]
  else
    ret [("error", VString ("Unknown command: " +:+ repr_keys command.*1))].

(** [__del__] *)
Definition __del__ : M unit :=
  r <- self running ;;
  if r then _stop_server else ret tt.

(** ** Names used in the statements *)

(** The two paths [_update_sensor_reading] computes for a sensor. *)
Definition temp_file (root : string) (sensor : Sensor) : string :=
  os_path_join (os_path_join root (name sensor)) "next.json".

Definition current_file (root : string) (sensor : Sensor) : string :=
  os_path_join (os_path_join root (name sensor)) "current.json".

(** The path an event writes in place, if it is such an event. *)
Definition written_in_place (e : Event) : option string :=
  match e with
  | EvOpen p | EvWrite p _ => Some p
  | _ => None
  end.

(** The sensors fetched by a run of events, in order. *)
Definition fetched (evs : list Event) : list string :=
  omap (λ e, match e with EvFetch n => Some n | _ => None end) evs.

(** Events that change the files below the served directory. *)
Definition is_file_event (e : Event) : bool :=
  match e with
  | EvOpen _ | EvWrite _ _ | EvReplace _ _ => true
  | _ => false
  end.

(** The sockets, threads, tasks and directories of two worlds agree. *)
Definition same_resources (w w' : World) : Prop :=
  dirs w' = dirs w ∧ sockets w' = sockets w
  ∧ threads w' = threads w ∧ tasks w' = tasks w.

(** The sensor's directory is ready to receive a snapshot. *)
Definition publishable (w : World) (root : string) (sensor : Sensor) : Prop :=
  os_path_dirname (temp_file root sensor) ∈ dirs w
  ∧ (temp_file root sensor ∉ dirs w)
  ∧ (current_file root sensor ∉ dirs w).

(** No server, thread or task of this instance is live. *)
Definition nothing_live (h : SensorHost) (w : World) : Prop :=
  running h = false
  ∧ server h = None
  ∧ (∀ t, refresh_task h = Some t → t ∉ tasks w)
  ∧ (∀ t, server_thread h = Some t → threads w !! t = None).

(** The directory named by [self.temp_dir], if any, does not exist. *)
Definition no_root (h : SensorHost) (w : World) : Prop :=
  truthy (temp_dir h) && os_path_exists w (default "" (temp_dir h)) = false.

(** At most one Generation: every live task, socket and thread is the one
    the instance holds. *)
Definition at_most_one (h : SensorHost) (w : World) : Prop :=
  (∀ t, t ∈ tasks w → refresh_task h = Some t)
  ∧ (∀ s, is_Some (sockets w !! s) → server h = Some s)
  ∧ (∀ t, is_Some (threads w !! t) → server_thread h = Some t).

(** Exactly one Generation: one task, one socket on the configured port, one
    thread serving it, and the root directory the instance names. *)
Definition live_generation (h : SensorHost) (w : World) : Prop :=
  running h = true
  ∧ ∃ t s th root,
      refresh_task h = Some t ∧ tasks w = {[t]}
      ∧ server h = Some s ∧ sockets w = {[s := port h]}
      ∧ server_thread h = Some th ∧ threads w = {[th := s]}
      ∧ temp_dir h = Some root ∧ root ≠ "" ∧ root ∈ dirs w.

(** Events that create a resource of a Generation. *)
Definition is_creation (e : Event) : bool :=
  match e with
  | EvMkdtemp _ | EvMakedirs _ | EvBind _ _ | EvThreadStart _ _
  | EvCreateTask _ => true
  | _ => false
  end.

(** Events that release a resource of a Generation. *)
Definition is_teardown (e : Event) : bool :=
  match e with
  | EvCancel _ | EvShutdown _ | EvServerClose _ | EvJoin _ | EvRmtree _ => true
  | _ => false
  end.

(** What a configuration asks for, as [reconfigure] reads it. *)
Definition configured_port (config : ComponentConfig) : Z :=
  int (number_value (field config "port")).

Definition configured_interval (config : ComponentConfig) : Q :=
  if has_field config "refresh" then
    let i := number_value (field config "refresh") in
    if Qle_bool i 0 then 5%Q else i
  else 5%Q.

Definition configured_sensors (config : ComponentConfig)
    (dependencies : gmap string Sensor) : list Sensor :=
  omap (λ v, dependencies !! string_value v) (list_value (field config "sensors")).

(** The world with further lines logged. *)
Definition with_log (l : list (Level * string)) (w : World) : World :=
  mkWorld (dirs w) (files w) (unavailable w) (sockets w) (threads w) (lingers w)
    (tasks w) (next_id w) (tmp_names w) (tmp_pos w) (clock w) (trace w)
    (log w ++ l).

(** [n] calls of [_stop_server] in a row. *)
Fixpoint shutdowns (n : nat) : M unit :=
  match n with
  | O => ret tt
  | S k => _stop_server ;; shutdowns k
  end.

(** The sockets, threads, tasks and unavailable ports of two worlds agree. *)
Definition same_process (w w' : World) : Prop :=
  sockets w' = sockets w ∧ threads w' = threads w
  ∧ tasks w' = tasks w ∧ unavailable w' = unavailable w.

(** ** A small installation on which the model is run *)

(** A machine with [/dev/shm], nothing running, and port 9000 taken. *)
Definition demo_world : World :=
  mkWorld {["/dev/shm"]} ∅ {[9000]} ∅ ∅ (λ _, true) ∅ 0%nat
    (λ n, match n with O => "tq3x9k2a" | 1%nat => "p0d7m1zc" | _ => "zzzzzzzz" end)
    0%nat 0%nat [] [].

Definition temp1 : Sensor := mkSensor "temp1" (λ _, Ok (JsonOk "{}")).

Definition temp2 : Sensor :=
  mkSensor "temp2" (λ _, Raise (OSError "sensor unreachable")).

Definition demo_deps : gmap string Sensor :=
  {[ "temp1" := temp1; "temp2" := temp2 ]}.

Definition demo_config (p : Q) : ComponentConfig :=
  mkConfig {[ "sensors" := VList [VString "temp2"; VString "temp1"];
              "port" := VNumber p ]}.

(** The outcome of a run, split into its three parts. *)
Definition outcome {A : Type} (x : result A * SensorHost * World) : result A := x.1.1.
Definition host_after {A : Type} (x : result A * SensorHost * World) : SensorHost := x.1.2.
Definition world_after {A : Type} (x : result A * SensorHost * World) : World := x.2.

(** The framework of the installation defines no [reconfigure] of its own. *)
Definition demo_base : result unit :=
  Raise (AttributeError "'super' object has no attribute 'reconfigure'").

(** The instance configured on port 8090, and the world it then lives in. *)
Definition demo_host : SensorHost :=
  host_after
    (reconfigure demo_base (demo_config 8090%Q) demo_deps __init__ demo_world).

Definition demo_live : World :=
  world_after
    (reconfigure demo_base (demo_config 8090%Q) demo_deps __init__ demo_world).

(** The same world once [temp1] has been published. *)
Definition demo_published : World :=
  world_after (_update_sensor_reading temp1 demo_host demo_live).

(** A sensor writing to [temp1]'s directory whose readings fail to serialise. *)
Definition broken : Sensor :=
  mkSensor "temp1"
    (λ _, Ok (JsonFail "{" (TypeError "Object is not JSON serializable"))).

(** ** Sequences of calls on one instance *)

(** The calls the framework and the event loop make on an instance: a
    (re)configuration, a command, some turns of the refresh loop run as the
    task [me], and the destruction of the object. *)
Inductive Call : Type :=
| Reconfigure (config : ComponentConfig) (dependencies : gmap string Sensor)
| DoCommand (command : list (string * Value))
| LoopTurns (fuel me : nat)
| Del.

(** The instance and the world once a call has returned or raised, under a
    framework whose closing [reconfigure] has the outcome [base]. *)
Definition state_after (base : result unit) (c : Call) (s : SensorHost * World)
  : SensorHost * World :=
  match c with
  | Reconfigure config dependencies =>
      let x := reconfigure base config dependencies s.1 s.2 in
      (host_after x, world_after x)
  | DoCommand command =>
      let x := do_command command s.1 s.2 in (host_after x, world_after x)
  | LoopTurns fuel me =>
      let x := _refresh_readings_loop fuel me s.1 s.2 in
      (host_after x, world_after x)
  | Del =>
      let x := __del__ s.1 s.2 in (host_after x, world_after x)
  end.

Definition history (base : result unit) (cs : list Call) (s : SensorHost * World)
  : SensorHost * World :=
  foldl (λ s c, state_after base c s) s cs.

(** A process in which no task, socket or thread exists yet. *)
Definition fresh_process (w : World) : Prop :=
  tasks w = ∅ ∧ sockets w = ∅ ∧ threads w = ∅.

(** The durations slept by a run of events, in order. *)
Definition slept (evs : list Event) : list Q :=
  omap (λ e, match e with EvSleep d => Some d | _ => None end) evs.

(** One turn of the refresh loop, as events: a sleep of the instance's
    interval, followed by a poll pass that sleeps no more and fetches every
    sensor once, in order. *)
Definition loop_turn (h : SensorHost) (turn : list Event) : Prop :=
  ∃ pass, turn = EvSleep (refresh_interval h) :: pass
          ∧ slept pass = []
          ∧ fetched pass = map name (sensors h).

(** A sensor name that is a single path component naming a directory of its
    own: not empty, not [.] or [..], and without a separator. *)
Definition plain_name (n : string) : Prop :=
  n ≠ "" ∧ n ≠ "." ∧ n ≠ ".." ∧ contains_slash n = false.

(** What holds of an instance between calls: at most one Generation, exactly
    one while it is running, and nothing in the process while it is not. *)
Definition generation_invariant (s : SensorHost * World) : Prop :=
  at_most_one s.1 s.2
  ∧ (running s.1 = true → live_generation s.1 s.2)
  ∧ (running s.1 = false → fresh_process s.2).

(** The directory [_setup_temp_directory] creates for a sensor. *)
Definition sensor_dir (root : string) (sensor : Sensor) : string :=
  os_path_join root (name sensor).

(** * Properties *)

(** ** Running the monad *)

Ltac run :=
  unfold logger in *;
  unfold bind, ret, raise, try_except, self, assign, env, effect, call, alloc in *.

Lemma bind_Ok {A B : Type} (m : M A) (k : A → M B) h w b h' w' :
  bind m k h w = (Ok b, h', w') →
  ∃ a h1 w1, m h w = (Ok a, h1, w1) ∧ k a h1 w1 = (Ok b, h', w').
Proof.
  unfold bind. destruct (m h w) as [[[a|e] h1] w1]; [eauto | discriminate].
Qed.

Lemma bind_Raise {A B : Type} (m : M A) (k : A → M B) h w e h' w' :
  bind m k h w = (Raise e, h', w') →
  m h w = (Raise e, h', w')
  ∨ ∃ a h1 w1, m h w = (Ok a, h1, w1) ∧ k a h1 w1 = (Raise e, h', w').
Proof.
  unfold bind. destruct (m h w) as [[[a|e0] h1] w1]; [eauto 6 | left; congruence].
Qed.

(** ** Paths *)

Lemma append_cons (x : ascii) (a b : string) :
  String x a +:+ b = String x (a +:+ b).
Proof. reflexivity. Qed.

Lemma append_assoc (a b c : string) : (a +:+ b) +:+ c = a +:+ (b +:+ c).
Proof.
  induction a as [|x a IH]; [done|]. by rewrite !append_cons, IH.
Qed.

Lemma prefix_append (a b : string) : String.prefix a (a +:+ b) = true.
Proof.
  induction a as [|x a IH]; [by destruct b|].
  rewrite append_cons. cbn. destruct (ascii_dec x x); [done | congruence].
Qed.

(** Joining a base name that is not absolute extends the directory. *)
Lemma os_path_join_relative (a b : string) :
  starts_with_slash b = false →
  os_path_join a b = (if bool_decide (a = "") then "" else as_dir a) +:+ b.
Proof.
  intros Hb. unfold os_path_join, as_dir. rewrite Hb.
  case_bool_decide as Ha; [by subst a|].
  destruct (ends_with_slash a); [done|].
  cbn [orb]. by rewrite append_assoc.
Qed.

Lemma temp_file_ne_current_file root sensor :
  temp_file root sensor ≠ current_file root sensor.
Proof.
  unfold temp_file, current_file.
  rewrite (os_path_join_relative _ "next.json") by done.
  rewrite (os_path_join_relative _ "current.json") by done.
  intros H. by apply String.app_inj in H.
Qed.

(** ** Publishing one snapshot: [_update_sensor_reading] *)

Ltac run_fs := unfold open_w, write, os_replace, emit, tick, set_fs, add_log in *.

(** C1: a snapshot is written to [next.json] in the sensor's directory and
    then moved onto [current.json] by [os.replace]; no event of the call
    opens or writes [current.json] itself.  On success the events are exactly
    fetch, open and write of [next.json], and the rename. *)
Theorem update_sensor_reading_publishes_by_rename sensor h w r h' w' :
  _update_sensor_reading sensor h w = (r, h', w') →
  ∃ evs, trace w' = trace w ++ evs
    ∧ (∀ e p, e ∈ evs → written_in_place e = Some p →
         ∃ root, temp_dir h = Some root
                 ∧ p = temp_file root sensor
                 ∧ p ≠ current_file root sensor)
    ∧ (r = Ok tt →
         ∃ root text,
           temp_dir h = Some root
           ∧ get_readings sensor (clock w) = Ok (JsonOk text)
           ∧ evs = [EvFetch (name sensor);
                    EvOpen (temp_file root sensor);
                    EvWrite (temp_file root sensor) text;
                    EvReplace (temp_file root sensor) (current_file root sensor)]
           ∧ files w' = <[current_file root sensor := text]>
                          (delete (temp_file root sensor) (files w))).
Proof.
  unfold _update_sensor_reading. run. run_fs. cbn.
  intros H.
  repeat (case_match; simplify_eq/=).
  all: rewrite <- ?app_assoc; cbn.
  all: eexists; split; [reflexivity|].
  all: split; [|try discriminate].
  all: try (intros ev q Hev Hq;
            repeat (apply elem_of_cons in Hev as [->|Hev]);
            [..|by apply elem_of_nil in Hev]; simplify_eq/=;
            (eexists; split; [reflexivity|]; split; [reflexivity|];
             apply temp_file_ne_current_file)).
  intros _. rewrite lookup_insert_eq in *. simplify_eq.
  eexists _, _. repeat split; [done..|].
  unfold temp_file, current_file. by rewrite !delete_insert_eq.
Qed.

(** C2: when [_update_sensor_reading] raises (the fetch, the serialisation,
    opening or writing [next.json], or the rename failed), the sensor's
    [current.json] holds what it held before: the only file the call can
    have changed is [next.json], no directory changed, and the exception was
    logged and passed on. *)
Theorem failed_update_keeps_current sensor h w e h' w' :
  _update_sensor_reading sensor h w = (Raise e, h', w') →
  h' = h
  ∧ dirs w' = dirs w
  ∧ (∀ root, temp_dir h = Some root →
       files w' !! current_file root sensor = files w !! current_file root sensor)
  ∧ (∀ p, (∀ root, temp_dir h = Some root → p ≠ temp_file root sensor) →
       files w' !! p = files w !! p)
  ∧ (∀ ev, ev ∈ drop (length (trace w)) (trace w') →
       ∀ src dst, ev ≠ EvReplace src dst)
  ∧ last (log w') =
      Some (ERROR, "Failed to get readings from sensor " +:+ name sensor
                    +:+ ": " +:+ str_exn e).
Proof.
  unfold _update_sensor_reading. run. run_fs. cbn.
  intros H.
  repeat (case_match; simplify_eq/=).
  all: split; [done|]; split; [done|].
  all: rewrite <- ?app_assoc, ?drop_app_length, ?last_snoc; cbn.
  all: split; [|split; [|split; [|done]]].
  all: try (intros root Hroot; simplify_eq;
            by rewrite ?lookup_insert_ne by apply temp_file_ne_current_file).
  all: try (intros p Hp; try done;
            by rewrite ?lookup_insert_ne
              by (intros <-; by eapply Hp)).
  all: intros ev Hev src dst ->;
       repeat (apply elem_of_cons in Hev as [?|Hev]; [done|]);
       by apply elem_of_nil in Hev.
Qed.

(** ** One poll pass: [_update_all_sensor_readings] *)

Lemma update_step sensor h w :
  ∃ r w' evs l,
    _update_sensor_reading sensor h w = (r, h, w')
    ∧ same_resources w w'
    ∧ clock w' = S (clock w)
    ∧ trace w' = trace w ++ EvFetch (name sensor) :: evs
    ∧ fetched evs = []
    ∧ log w' = log w ++ l
    ∧ (∀ root text,
         temp_dir h = Some root →
         get_readings sensor (clock w) = Ok (JsonOk text) →
         publishable w root sensor →
         r = Ok tt)
    ∧ (r = Ok tt →
         ∃ root, temp_dir h = Some root
           ∧ EvReplace (temp_file root sensor) (current_file root sensor) ∈ evs).
Proof.
  unfold _update_sensor_reading, publishable, same_resources.
  run. run_fs. cbn.
  repeat (case_match; simplify_eq/=).
  all: rewrite <- ?app_assoc; cbn.
  all: eexists _, _, _, _; split; [reflexivity|].
  all: split; [done|]; split; [done|]; split; [reflexivity|]; split; [done|].
  all: split; [try (by rewrite app_nil_r); reflexivity|].
  all: split; [|try discriminate].
  all: try (intros root0 text0 ?? (Hd & Ht & Hc); simplify_eq;
            unfold temp_file, current_file in *;
            repeat match goal with
                   | H : negb _ = true |- _ => apply negb_true_iff in H
                   | H : bool_decide _ = true |- _ => apply bool_decide_eq_true in H
                   | H : bool_decide _ = false |- _ => apply bool_decide_eq_false in H
                   | H : _ !! _ = None |- _ => rewrite lookup_insert_eq in H
                   end; done).
  intros _. eexists; split; [done|]. unfold temp_file, current_file.
  set_solver.
Qed.

Lemma logger_run lvl msg h w : logger lvl msg h w = (Ok tt, h, add_log lvl msg w).
Proof. reflexivity. Qed.

Lemma fetched_app (a b : list Event) : fetched (a ++ b) = fetched a ++ fetched b.
Proof. unfold fetched. apply omap_app. Qed.

Lemma publishable_same w w' root sensor :
  same_resources w w' → publishable w root sensor → publishable w' root sensor.
Proof. unfold same_resources, publishable. intros (-> & _). done. Qed.

Lemma same_resources_trans w1 w2 w3 :
  same_resources w1 w2 → same_resources w2 w3 → same_resources w1 w3.
Proof. unfold same_resources. intuition congruence. Qed.

Lemma poll_pass h ss :
  ∀ w, ∃ w' evs l,
    for_each ss (λ sensor,
      try_except (_update_sensor_reading sensor)
        (λ e, logger ERROR ("Failed to update readings for sensor "
                            +:+ name sensor +:+ ": " +:+ str_exn e))) h w
    = (Ok tt, h, w')
    ∧ same_resources w w'
    ∧ clock w' = (clock w + length ss)%nat
    ∧ trace w' = trace w ++ evs
    ∧ fetched evs = map name ss
    ∧ log w' = log w ++ l
    ∧ (∀ i s root text,
         ss !! i = Some s →
         temp_dir h = Some root →
         get_readings s (clock w + i)%nat = Ok (JsonOk text) →
         publishable w root s →
         EvReplace (temp_file root s) (current_file root s) ∈ evs)
    ∧ (∀ s, s ∈ ss →
         (∃ root, temp_dir h = Some root
            ∧ EvReplace (temp_file root s) (current_file root s) ∈ evs)
         ∨ (∃ e, (ERROR, "Failed to update readings for sensor "
                         +:+ name s +:+ ": " +:+ str_exn e) ∈ l)).
Proof.
  induction ss as [|s ss IH]; intros w.
  - exists w, [], []. cbn. unfold ret, same_resources.
    rewrite !app_nil_r, Nat.add_0_r. repeat split; try done.
    intros ? H. by apply elem_of_nil in H.
  - destruct (update_step s h w)
      as (r & w1 & evs1 & l1 & Hrun & Hres & Hclk & Htr & Hf & Hlog & Hok & Hpub).
    cbn [for_each]. unfold bind at 1. unfold try_except at 1. rewrite Hrun.
    destruct r as [[]|e].
    + destruct (IH w1) as (w' & evs & l & Hrest & Hres' & Hclk' & Htr' & Hf' & Hlog' & Hok' & Hpub').
      rewrite Hrest. exists w', (EvFetch (name s) :: evs1 ++ evs), (l1 ++ l).
      split; [done|]. split; [by eapply same_resources_trans|].
      split; [rewrite Hclk', Hclk; cbn; lia|].
      split; [rewrite Htr', Htr, <- app_assoc; done|].
      split; [change (EvFetch (name s) :: evs1 ++ evs) with ([EvFetch (name s)] ++ evs1 ++ evs);
              rewrite !fetched_app, Hf, Hf'; done|].
      split; [rewrite Hlog', Hlog, <- app_assoc; done|].
      destruct (Hpub eq_refl) as (root0 & Hroot0 & Hin0).
      split.
      * intros [|i] s' root text Hs' Hroot Hget Hp; cbn in Hs'.
        -- assert (root = root0) as -> by congruence. set_solver.
        -- assert (EvReplace (temp_file root s') (current_file root s') ∈ evs); [|set_solver].
           eapply (Hok' i); eauto using publishable_same.
           by replace (clock w1 + i)%nat with (clock w + S i)%nat by lia.
      * intros s' [->|Hs']%elem_of_cons.
        -- left. exists root0. split; [done|]. set_solver.
        -- destruct (Hpub' s' Hs') as [(root & ? & ?)|(e & ?)].
           ++ left. exists root. split; [done|]. set_solver.
           ++ right. exists e. set_solver.
    + cbv beta iota. rewrite logger_run.
      set (msg := "Failed to update readings for sensor " +:+ name s +:+ ": " +:+ str_exn e).
      destruct (IH (add_log ERROR msg w1))
        as (w' & evs & l & Hrest & Hres' & Hclk' & Htr' & Hf' & Hlog' & Hok' & Hpub').
      rewrite Hrest. exists w', (EvFetch (name s) :: evs1 ++ evs), (l1 ++ (ERROR, msg) :: l).
      split; [done|]. split; [eapply same_resources_trans; [exact Hres|exact Hres']|].
      split; [rewrite Hclk'; cbn; rewrite Hclk; lia|].
      split; [rewrite Htr'; cbn; rewrite Htr, <- app_assoc; done|].
      split; [change (EvFetch (name s) :: evs1 ++ evs) with ([EvFetch (name s)] ++ evs1 ++ evs);
              rewrite !fetched_app, Hf, Hf'; done|].
      split; [rewrite Hlog'; cbn; rewrite Hlog, <- !app_assoc; done|].
      split.
      * intros [|i] s' root text Hs' Hroot Hget Hp; cbn in Hs'.
        -- injection Hs' as <-.
           rewrite Nat.add_0_r in Hget. by specialize (Hok _ _ Hroot Hget Hp).
        -- assert (EvReplace (temp_file root s') (current_file root s') ∈ evs); [|set_solver].
           eapply (Hok' i); eauto.
           ++ cbn. by replace (clock w1 + i)%nat with (clock w + S i)%nat by lia.
           ++ eapply publishable_same; [|done]. exact Hres.
      * intros s' [->|Hs']%elem_of_cons.
        -- right. exists e. set_solver.
        -- destruct (Hpub' s' Hs') as [(root & ? & ?)|(e' & ?)].
           ++ left. exists root. split; [done|]. set_solver.
           ++ right. exists e'. set_solver.
Qed.


(** ** Teardown: [_stop_server] *)

Ltac run_proc :=
  unfold task_done, task_cancel, server_shutdown, server_close, is_alive,
    thread_join, rmtree, emit, set_fs, set_sockets, set_threads, set_tasks,
    add_log in *.

Ltac debool :=
  repeat match goal with
         | H : negb _ = true |- _ => rewrite negb_true_iff in H
         | H : negb _ = false |- _ => rewrite negb_false_iff in H
         | H : bool_decide _ = true |- _ => rewrite bool_decide_eq_true in H
         | H : bool_decide _ = false |- _ => rewrite bool_decide_eq_false in H
         | H : _ && _ = true |- _ => apply andb_true_iff in H as [? ?]
         end.

Ltac solve_map_sub :=
  first [ done
        | apply delete_subseteq
        | apply map_filter_subseteq
        | etrans; [apply delete_subseteq | apply map_filter_subseteq] ].

Lemma filtered_gone p (d : gset string) (f : gmap string string) :
  ¬ set_Exists (within p)
      (filter (λ q, ¬ within p q) d ∪ dom (filter (λ kv, ¬ within p kv.1) f)).
Proof.
  intros (q & Hq & Hw).
  apply elem_of_union in Hq as [Hq|Hq].
  - apply elem_of_filter in Hq as [Hn _]. done.
  - apply elem_of_dom in Hq as [x Hx].
    apply map_lookup_filter_Some in Hx as [_ Hn]. done.
Qed.

Lemma rmtree_gone p w : os_path_exists (rmtree p w) p = false.
Proof.
  unfold os_path_exists, rmtree, paths, emit, set_fs. cbn.
  apply bool_decide_eq_false, filtered_gone.
Qed.

Lemma truthy_Some root : root ≠ "" → truthy (Some root) = true.
Proof. intros. unfold truthy. by rewrite bool_decide_eq_false_2. Qed.

(** Under [at_most_one], the thread map left by the teardown is empty. *)
Ltac no_threads Hs Hth :=
  apply map_empty; intros i; apply eq_None_not_Some; intros Hi;
  let Hi' := fresh in
  assert (is_Some (threads _ !! i)) as Hi'
    by (eapply lookup_weaken_is_Some; [exact Hi | solve_map_sub]);
  specialize (Hth _ Hi'); simplify_eq;
  try (rewrite lookup_delete_eq in Hi; by destruct Hi);
  try done;
  repeat match goal with
         | H : is_Some (delete _ _ !! _) |- _ =>
             let H' := fresh in
             pose proof (lookup_weaken_is_Some _ _ _ H (delete_subseteq _ _)) as H';
             specialize (Hs _ H'); simplify_eq;
             rewrite lookup_delete_eq in H; by destruct H
         | H : is_Some (sockets _ !! _) |- _ => specialize (Hs _ H); simplify_eq
         end.

Lemma stop_server_runs h w :
  ∃ h1 w1 evs,
    _stop_server h w = (Ok tt, h1, w1)
    ∧ nothing_live h1 w1
    ∧ no_root h1 w1
    ∧ sensors h1 = sensors h ∧ port h1 = port h
    ∧ refresh_interval h1 = refresh_interval h
    ∧ tasks w1 ⊆ tasks w ∧ sockets w1 ⊆ sockets w ∧ threads w1 ⊆ threads w
    ∧ dirs w1 ⊆ dirs w ∧ files w1 ⊆ files w
    ∧ unavailable w1 = unavailable w
    ∧ trace w1 = trace w ++ evs
    ∧ Forall (λ e, is_teardown e = true) evs
    ∧ log w1 = log w ++ [(INFO, "HTTP server stopped and resources cleaned up")]
    ∧ (at_most_one h w → tasks w1 = ∅ ∧ sockets w1 = ∅ ∧ threads w1 = ∅)
    ∧ (∀ root, temp_dir h = Some root → root ≠ "" →
         os_path_exists w1 root = false)
    ∧ (∀ t, refresh_task h = Some t → t ∈ tasks w → EvCancel t ∈ evs)
    ∧ (∀ s, server h = Some s → EvShutdown s ∈ evs ∧ EvServerClose s ∈ evs)
    ∧ (∀ root, temp_dir h = Some root → root ≠ "" →
         os_path_exists w root = true → EvRmtree root ∈ evs).
Proof.
  unfold _stop_server, nothing_live, no_root, at_most_one. run. run_proc.
  unfold os_path_exists, paths. cbn.
  repeat (case_match; simplify_eq/=).
  all: rewrite <- ?app_assoc; cbn.
  all: eexists _, _, _; split; [reflexivity|]; cbn.
  all: debool.
  all: split; [repeat split; try done; intros; simplify_eq;
               try set_solver; by apply eq_None_not_Some|].
  all: split; [done|].
  all: do 3 (split; [done|]).
  all: split; [set_solver|].
  all: split; [solve_map_sub|].
  all: split; [solve_map_sub|].
  all: split; [set_solver|].
  all: split; [solve_map_sub|].
  all: split; [done|].
  all: split; [try (by rewrite app_nil_r); reflexivity|].
  all: split; [repeat constructor|].
  all: split; [done|].
  all: split; [intros (Ht & Hs & Hth); split; [|split]|].
  all: try (apply elem_of_equiv_empty_L; intros x Hx;
            specialize (Ht x); set_solver).
  all: try (apply map_empty; intros i; apply eq_None_not_Some; intros Hi;
            assert (is_Some (sockets _ !! i)) as Hi'
              by (eapply lookup_weaken_is_Some; [exact Hi | solve_map_sub]);
            specialize (Hs _ Hi'); simplify_eq;
            rewrite lookup_delete_eq in Hi; by destruct Hi).
  all: try (by no_threads Hs Hth).
  all: split; [intros root Hr Hne; rewrite Hr in *;
               rewrite ?(truthy_Some root Hne) in *; cbn in *; debool;
               apply bool_decide_eq_false; try done; apply filtered_gone|].
  all: split; [intros; simplify_eq; set_solver|].
  all: split; [intros; simplify_eq; set_solver|].
  all: intros root Hr Hne Hex; rewrite Hr in *;
       rewrite ?(truthy_Some root Hne) in *; cbn in *;
       try congruence; set_solver.
Qed.

Lemma with_log_nil w : with_log [] w = w.
Proof. destruct w. unfold with_log. cbn. by rewrite app_nil_r. Qed.

Lemma with_log_app l1 l2 w : with_log l2 (with_log l1 w) = with_log (l1 ++ l2) w.
Proof. unfold with_log. cbn. by rewrite app_assoc. Qed.

Lemma nothing_live_with_log h w l : nothing_live h w → nothing_live h (with_log l w).
Proof. done. Qed.

Lemma no_root_with_log h w l : no_root h w → no_root h (with_log l w).
Proof. done. Qed.

(** With nothing live and no root directory, every guard of [_stop_server]
    is false: it only logs. *)
Lemma stop_server_noop h w :
  nothing_live h w →
  no_root h w →
  _stop_server h w
  = (Ok tt, h, with_log [(INFO, "HTTP server stopped and resources cleaned up")] w).
Proof.
  intros (Hrun & Hsrv & Htask & Hthr) Hroot.
  unfold _stop_server, no_root, os_path_exists, paths in *. run. run_proc.
  destruct h as [ss p i srv thr task d r]. cbn in *. subst srv r.
  destruct task as [t|]; cbn;
    [rewrite (bool_decide_eq_false_2 _ (Htask t eq_refl)); cbn|].
  all: destruct thr as [t'|]; cbn;
    [rewrite (bool_decide_eq_false_2 (is_Some _));
       [|rewrite (Hthr t' eq_refl); by intros []]; cbn|].
  all: by rewrite Hroot.
Qed.

(** C8: once [_stop_server] has run, the instance holds nothing live and no
    root directory, and every further call skips all teardown steps: it
    raises nothing, performs no effect and leaves the instance and the world
    unchanged but for the line it logs; [__del__] then does nothing at all. *)
Theorem stop_server_idempotent h w :
  ∃ h1 w1,
    _stop_server h w = (Ok tt, h1, w1)
    ∧ nothing_live h1 w1
    ∧ no_root h1 w1
    ∧ __del__ h1 w1 = (Ok tt, h1, w1)
    ∧ ∀ n,
        shutdowns n h1 w1
        = (Ok tt, h1,
           with_log
             (replicate n (INFO, "HTTP server stopped and resources cleaned up"))
             w1).
Proof.
  destruct (stop_server_runs h w) as (h1 & w1 & evs & Hrun & Hlive & Hroot & _).
  exists h1, w1. split; [done|]. split; [done|]. split; [done|]. split.
  - unfold __del__, bind, self, ret. destruct Hlive as (-> & _). done.
  - intros n. revert Hlive Hroot. generalize w1. clear.
    induction n as [|n IH]; intros w1 Hlive Hroot; cbn [shutdowns replicate].
    + by rewrite with_log_nil.
    + unfold bind. rewrite (stop_server_noop _ _ Hlive Hroot).
      rewrite IH by done. by rewrite with_log_app.
Qed.

(** ** Commands: [do_command] *)

(** C9 as stated fails: a mapping that also carries the key [status] is
    answered by the status branch, so a running instance performs no poll
    and returns no confirmation. *)
Lemma refresh_now_shadowed_by_status :
  ¬ (∀ command h w,
       "refresh_now" ∈ command.*1 →
       running h = true →
       ∃ w', do_command command h w
             = (Ok [("message", VString "Sensor readings refreshed")], h, w')).
Proof.
  intros H.
  destruct (H [("status", VNull); ("refresh_now", VNull)]
              (mkHost [] 8080 5%Q None None None None true)
              (mkWorld ∅ ∅ ∅ ∅ ∅ (λ _, false) ∅ 0 (λ _, "") 0 0 [] []))
    as [w' Hw']; [set_solver | done | discriminate Hw'].
Qed.

(** C9 (amended): for a mapping with the key [refresh_now] and without the
    key [status], an instance that is not running answers "not running"
    without raising and without any effect, and a running instance performs
    one poll pass (every sensor fetched once) and confirms. *)
Theorem refresh_now_command command h w :
  "refresh_now" ∈ command.*1 →
  "status" ∉ command.*1 →
  (running h = false →
     do_command command h w
     = (Ok [("error", VString "SensorHost not running")], h, w))
  ∧ (running h = true →
     ∃ w' evs,
       _update_all_sensor_readings h w = (Ok tt, h, w')
       ∧ do_command command h w
         = (Ok [("message", VString "Sensor readings refreshed")], h, w')
       ∧ trace w' = trace w ++ evs
       ∧ fetched evs = map name (sensors h)).
Proof.
  intros Hr Hs. unfold do_command.
  rewrite (bool_decide_eq_false_2 _ Hs), (bool_decide_eq_true_2 _ Hr).
  split; intros Hrun.
  - unfold bind, self, ret. by rewrite Hrun.
  - destruct (poll_pass h (sensors h) w)
      as (w' & evs & l & Hpass & _ & _ & Htr & Hf & _).
    assert (_update_all_sensor_readings h w = (Ok tt, h, w')) as Hall.
    { unfold _update_all_sensor_readings, bind, self. by rewrite Hpass. }
    exists w', evs. split; [done|]. split; [|done].
    unfold bind at 1. unfold self at 1. rewrite Hrun.
    unfold bind, ret. by rewrite Hall.
Qed.

(** ** Validation: [validate_config] *)

(** What [validate_config] does reject: a missing or empty sensor list, a
    missing port, and a port that is not positive or exceeds 65535. *)
Lemma validate_config_rejects config :
  has_field config "sensors" = false
  ∨ list_value (field config "sensors") = []
  ∨ has_field config "port" = false
  ∨ (number_value (field config "port") <= 0)%Q
  ∨ (65535 < number_value (field config "port"))%Q →
  is_raise (validate_config config) = true.
Proof.
  unfold validate_config.
  intros [H|[H|[H|[H|H]]]].
  - by rewrite H.
  - rewrite H. by destruct (has_field config "sensors").
  - rewrite H. destruct (has_field config "sensors"); [|done].
    by destruct (length _ =? _)%nat.
  - apply Qle_bool_iff in H. rewrite H.
    destruct (has_field config "sensors"); [|done]. cbn.
    destruct (length _ =? _)%nat; [done|].
    by destruct (has_field config "port").
  - assert (Qlt_bool 65535 (number_value (field config "port")) = true) as ->.
    { unfold Qlt_bool. apply negb_true_iff. apply not_true_is_false.
      intros Hle%Qle_bool_iff. by apply Qle_not_lt in Hle. }
    rewrite orb_true_r.
    destruct (has_field config "sensors"); [|done]. cbn.
    destruct (length _ =? _)%nat; [done|].
    by destruct (has_field config "port").
Qed.

(** C6 fails on the code: the range test [port <= 0 or port > 65535] lets a
    fractional port between 0 and 1 through, although it lies outside
    [1, 65535]; [reconfigure] then truncates it to port 0. *)
Theorem validate_config_accepts_fractional_port :
  let config :=
    mkConfig {[ "sensors" := VList [VString "temp1"];
                "port" := VNumber (1 # 2)%Q ]} in
  validate_config config = Ok (["temp1"], [])
  ∧ (number_value (field config "port") < 1)%Q
  ∧ configured_port config = 0.
Proof. split; [reflexivity|]. split; reflexivity. Qed.

(** ** Start-up: the steps of [reconfigure] *)

Lemma for_each_cons {A : Type} (x : A) l body h w :
  for_each (x :: l) body h w
  = match body x h w with
    | (Ok _, h', w') => for_each l body h' w'
    | (Raise e, h', w') => (Raise e, h', w')
    end.
Proof. reflexivity. Qed.

Lemma set_sensors_id h : set_sensors (sensors h) h = h.
Proof. by destruct h. Qed.

(** The loop that resolves the configured names against the dependencies. *)
Lemma resolve_sensors_runs (deps : gmap string Sensor) names :
  ∃ l, ∀ h w,
    for_each names (λ sensor_value,
      let sensor_name := string_value sensor_value in
      match deps !! sensor_name with
      | Some sensor =>
          ss <- self sensors ;;
          assign (set_sensors (ss ++ [sensor]))
      | None =>
          logger WARNING ("Sensor '" +:+ sensor_name +:+ "' not found in dependencies")
      end) h w
    = (Ok tt,
       set_sensors (sensors h ++ omap (λ v, deps !! string_value v) names) h,
       with_log l w).
Proof.
  unfold bind, self, assign, logger, effect. cbv zeta.
  induction names as [|v names [l IH]].
  - exists []. intros h w. cbn. unfold ret.
    by rewrite app_nil_r, set_sensors_id, with_log_nil.
  - destruct (deps !! string_value v) as [s|] eqn:Hs.
    + exists l. intros h w. rewrite for_each_cons. cbv beta.
      rewrite Hs. cbv beta iota. rewrite IH. cbn. rewrite Hs.
      unfold set_sensors. cbn. by rewrite <- app_assoc.
    + eexists (_ :: l). intros h w. rewrite for_each_cons. cbv beta.
      rewrite Hs. cbv beta iota. rewrite IH. cbn. rewrite Hs. f_equal.
      unfold with_log, add_log. cbn. by rewrite <- app_assoc.
Qed.

(** Assigning the port, the interval and the sensors, then going on. *)
Lemma reconfigure_fields config deps (k : M unit) h w :
  ∃ l,
    (assign (set_port (int (number_value (field config "port")))) ;;
     (if has_field config "refresh" then
        assign (set_refresh_interval (number_value (field config "refresh"))) ;;
        i <- self refresh_interval ;;
        if Qle_bool i 0 then assign (set_refresh_interval 5%Q) else ret tt
      else assign (set_refresh_interval 5%Q)) ;;
     assign (set_sensors []) ;;
     for_each (list_value (field config "sensors")) (λ sensor_value,
       let sensor_name := string_value sensor_value in
       match deps !! sensor_name with
       | Some sensor =>
           ss <- self sensors ;;
           assign (set_sensors (ss ++ [sensor]))
       | None =>
           logger WARNING ("Sensor '" +:+ sensor_name +:+ "' not found in dependencies")
       end) ;;
     k) h w
    = k (set_sensors (configured_sensors config deps)
           (set_refresh_interval (configured_interval config)
              (set_port (configured_port config) h)))
        (with_log l w).
Proof.
  unfold configured_sensors, configured_interval, configured_port.
  destruct (resolve_sensors_runs deps (list_value (field config "sensors")))
    as [l Hl].
  exists l.
  remember (for_each (list_value (field config "sensors")) _) as loop eqn:Hloop.
  unfold bind, assign, self, ret.
  destruct (has_field config "refresh"); cbn -[int];
    [destruct (Qle_bool (number_value (field config "refresh")) 0)|].
  all: cbn -[int]; rewrite Hl; cbn -[int]; reflexivity.
Qed.

Lemma not_exists_within w root p :
  os_path_exists w root = false → within root p → files w !! p = None.
Proof.
  unfold os_path_exists, paths. intros Hex Hp.
  apply bool_decide_eq_false in Hex.
  apply eq_None_not_Some. intros Hsome. apply Hex.
  exists p. split; [|done]. apply elem_of_union_r. by apply elem_of_dom.
Qed.

Lemma mkdtemp_draw_fresh tries :
  ∀ pos dir pre w file pos',
    mkdtemp_draw tries pos dir pre w = Some (file, pos') →
    os_path_exists w file = false
    ∧ ∃ k, file = os_path_join dir (pre +:+ tmp_names w k).
Proof.
  induction tries as [|n IH]; intros pos dir pre w file pos' H; [done|].
  cbn in H.
  destruct (os_path_exists w (os_path_join dir (pre +:+ tmp_names w pos))) eqn:E.
  - by eapply IH.
  - simplify_eq. eauto.
Qed.

Lemma mkdtemp_runs w :
  ∃ r w',
    mkdtemp "/dev/shm" "sensor_host_" w = (r, w')
    ∧ same_process w w'
    ∧ files w' = files w
    ∧ log w' = log w
    ∧ match r with
      | Raise _ => w' = w
      | Ok root =>
          root ≠ ""
          ∧ os_path_exists w root = false
          ∧ dirs w' = {[root]} ∪ dirs w
          ∧ trace w' = trace w ++ [EvMkdtemp root]
      end.
Proof.
  unfold mkdtemp, same_process.
  destruct (negb (bool_decide ("/dev/shm" ∈ dirs w))); [by eexists _, _|].
  destruct (mkdtemp_draw TMP_MAX (tmp_pos w) "/dev/shm" "sensor_host_" w)
    as [[file pos]|] eqn:E; [|by eexists _, _].
  apply mkdtemp_draw_fresh in E as (Hfresh & k & ->).
  eexists _, _. split; [reflexivity|]. cbn. repeat split; done.
Qed.

(** The loop that creates one directory per sensor. *)
Lemma makedirs_loop_runs ss :
  ∀ h w, ∃ r w' made,
    for_each ss (λ sensor,
      root <- self temp_dir ;;
      let sensor_dir := os_path_join (default "" root) (name sensor) in
      call (makedirs sensor_dir)) h w
    = (r, h, w')
    ∧ same_process w w'
    ∧ files w' = files w
    ∧ dirs w ⊆ dirs w'
    ∧ log w' = log w
    ∧ trace w' = trace w ++ map EvMakedirs made.
Proof.
  unfold bind, self, call, makedirs, same_process. cbv zeta.
  induction ss as [|s ss IH]; intros h w.
  - exists (Ok tt), w, []. cbn. unfold ret. by rewrite app_nil_r.
  - rewrite for_each_cons. cbv beta iota.
    destruct (bool_decide (_ ∈ dom (files w))).
    + eexists _, _, []. cbn. split; [reflexivity|]. by rewrite app_nil_r.
    + cbv beta iota.
      destruct (IH h (emit (EvMakedirs (os_path_join (default "" (temp_dir h)) (name s)))
                        (set_fs ({[os_path_join (default "" (temp_dir h)) (name s)]} ∪ dirs w)
                           (files w) w)))
        as (r & w' & made & Hrun & (Hs & Ht & Hk & Hu) & Hf & Hd & Hl & Htr).
      exists r, w', (os_path_join (default "" (temp_dir h)) (name s) :: made).
      rewrite Hrun. cbn in *. split; [done|]. split; [done|].
      split; [done|]. split; [set_solver|]. split; [done|].
      by rewrite Htr, <- app_assoc.
Qed.

Lemma fetched_makedirs made : fetched (map EvMakedirs made) = [].
Proof. induction made as [|p made IH]; [done | exact IH]. Qed.

Lemma same_process_trans w1 w2 w3 :
  same_process w1 w2 → same_process w2 w3 → same_process w1 w3.
Proof. unfold same_process. intuition congruence. Qed.

Lemma same_process_refl w : same_process w w.
Proof. done. Qed.

Lemma setup_temp_directory_runs h w :
  ∃ r h' w' evs l,
    _setup_temp_directory h w = (r, h', w')
    ∧ h' = set_temp_dir (temp_dir h') h
    ∧ same_process w w'
    ∧ files w' ⊆ files w
    ∧ trace w' = trace w ++ evs
    ∧ fetched evs = []
    ∧ Forall (λ e, is_file_event e = false) evs
    ∧ log w' = log w ++ l
    ∧ (∀ root, temp_dir h' = Some root →
         temp_dir h = Some root
         ∨ (root ≠ "" ∧ root ∈ dirs w' ∧ EvMkdtemp root ∈ evs
            ∧ ∀ p, within root p → files w' !! p = None))
    ∧ (r = Ok tt →
         ∃ root, temp_dir h' = Some root
           ∧ root ≠ "" ∧ root ∈ dirs w' ∧ EvMkdtemp root ∈ evs
           ∧ ∀ p, within root p → files w' !! p = None).
Proof.
  unfold _setup_temp_directory.
  set (w0 := if truthy (temp_dir h) then rmtree (default "" (temp_dir h)) w else w).
  assert (same_process w w0 ∧ files w0 ⊆ files w ∧ log w0 = log w
          ∧ ∃ evs0, trace w0 = trace w ++ evs0 ∧ fetched evs0 = []
                    ∧ Forall (λ e, is_file_event e = false) evs0)
    as (Hp0 & Hf0 & Hl0 & evs0 & Htr0 & Hfe0 & Hfi0).
  { unfold w0, same_process. destruct (truthy (temp_dir h)); cbn.
    - repeat split; try done; [solve_map_sub|].
      exists [EvRmtree (default "" (temp_dir h))]. repeat split; try done.
      by repeat constructor.
    - repeat split; try done. exists []. by rewrite app_nil_r. }
  destruct (mkdtemp_runs w0) as (r1 & w1 & Hmk & Hp1 & Hf1 & Hl1 & Hr1).
  assert (∀ k : string → M unit,
            (old <- self temp_dir ;;
             (if truthy old then effect (rmtree (default "" old)) else ret tt) ;;
             d <- call (mkdtemp "/dev/shm" "sensor_host_") ;; k d) h w
            = match r1 with
              | Ok d => k d h w1
              | Raise e => (Raise e, h, w1)
              end) as Hhead.
  { intros k. unfold bind, self, call, effect, ret. fold w0.
    destruct (truthy (temp_dir h)); cbn; fold w0; rewrite Hmk; by destruct r1. }
  clearbody w0.
  destruct r1 as [root|e].
  - destruct Hr1 as (Hne & Hfresh & Hd1 & Htr1).
    destruct (makedirs_loop_runs (sensors h) (set_temp_dir (Some root) h) w1)
      as (r2 & w2 & made & Hloop & Hp2 & Hf2 & Hd2 & Hl2 & Htr2).
    cbv zeta in Hloop.
    assert (root ∈ dirs w2 ∧ ∀ p, within root p → files w2 !! p = None) as [Hin Hnone].
    { split; [set_solver|]. intros p Hp. rewrite Hf2, Hf1.
      by eapply not_exists_within. }
    destruct r2 as [[]|e].
    + eexists (Ok tt), (set_temp_dir (Some root) h), _,
        (evs0 ++ [EvMkdtemp root] ++ map EvMakedirs made), _.
      split.
      { rewrite Hhead. unfold bind at 1. unfold assign at 1.
        unfold bind at 1. unfold self at 1. cbn [sensors set_temp_dir].
        unfold bind at 1. rewrite Hloop.
        unfold bind, self, logger, effect. reflexivity. }
      cbn. split; [done|].
      split; [eauto using same_process_trans|].
      split; [by rewrite Hf2, Hf1|].
      split; [by rewrite Htr2, Htr1, Htr0, <- !app_assoc|].
      split; [rewrite fetched_app, Hfe0; exact (fetched_makedirs made)|].
      split; [apply Forall_app; split; [done|]; constructor; [done|];
              by apply Forall_fmap, Forall_true|].
      split; [by rewrite Hl2, Hl1, Hl0|].
      split; [intros ? [= <-]; right|intros _; exists root; split; [done|]];
        (split; [done|]; split; [done|]; split; [set_solver|done]).
    + eexists (Raise e), (set_temp_dir (Some root) h), w2,
        (evs0 ++ [EvMkdtemp root] ++ map EvMakedirs made), [].
      split.
      { rewrite Hhead. unfold bind at 1. unfold assign at 1.
        unfold bind at 1. unfold self at 1. cbn [sensors set_temp_dir].
        unfold bind at 1. rewrite Hloop. reflexivity. }
      cbn. split; [done|].
      split; [eauto using same_process_trans|].
      split; [by rewrite Hf2, Hf1|].
      split; [by rewrite Htr2, Htr1, Htr0, <- !app_assoc|].
      split; [rewrite fetched_app, Hfe0; exact (fetched_makedirs made)|].
      split; [apply Forall_app; split; [done|]; constructor; [done|];
              by apply Forall_fmap, Forall_true|].
      split; [by rewrite app_nil_r, Hl2, Hl1, Hl0|].
      split; [intros ? [= <-]; right|discriminate].
      split; [done|]; split; [done|]; split; [set_solver|done].
  - subst w1. eexists (Raise e), h, w0, evs0, [].
    split; [by rewrite Hhead|].
    split; [by destruct h|]. split; [done|]. split; [done|].
    split; [done|]. split; [done|]. split; [done|].
    split; [by rewrite app_nil_r|]. split; [eauto|discriminate].
Qed.

Lemma start_server_runs h w :
  server h = None →
  ∃ r h' w' evs l,
    _start_server h w = (r, h', w')
    ∧ dirs w' = dirs w ∧ files w' = files w
    ∧ tasks w' = tasks w ∧ unavailable w' = unavailable w
    ∧ trace w' = trace w ++ evs
    ∧ log w' = log w ++ l
    ∧ match r with
      | Raise _ =>
          h' = h ∧ sockets w' = sockets w ∧ threads w' = threads w ∧ evs = []
      | Ok _ =>
          ∃ s th,
            h' = set_server_thread (Some th) (set_server (Some s) h)
            ∧ sockets w' = <[s := port h]> (sockets w)
            ∧ threads w' = <[th := s]> (threads w)
            ∧ evs = [EvBind s (port h); EvThreadStart th s]
      end
    ∧ (port h ≠ 0 → port h ∈ unavailable w → is_raise r = true).
Proof.
  intros Hsrv. unfold _start_server. run.
  unfold HTTPServer, thread_start, emit, set_next_id, set_sockets, set_threads,
    add_log.
  rewrite Hsrv. cbn.
  repeat (case_match; simplify_eq/=).
  all: rewrite <- ?app_assoc; cbn.
  all: eexists _, _, _, _, _; split; [reflexivity|]; cbn.
  all: do 4 (split; [done|]).
  all: split; [try (by rewrite app_nil_r); reflexivity|].
  all: split; [reflexivity|].
  all: split; [try (repeat split; done); by eexists _, _|].
  all: try done.
  all: intros Hne Hin; exfalso.
  all: repeat match goal with
              | H : _ && _ = false |- _ => apply andb_false_iff in H as [H|H]
              | H : _ || _ = false |- _ => apply orb_false_iff in H as [? ?]
              | H : negb _ = false |- _ => rewrite negb_false_iff in H
              | H : (_ =? _) = true |- _ => apply Z.eqb_eq in H
              | H : bool_decide _ = false |- _ => rewrite bool_decide_eq_false in H
              end; done.
Qed.

Lemma start_refresh_task_runs h w :
  (∀ t, refresh_task h = Some t → t ∉ tasks w) →
  ∃ t w',
    _start_refresh_task h w = (Ok tt, set_refresh_task (Some t) h, w')
    ∧ dirs w' = dirs w ∧ files w' = files w
    ∧ sockets w' = sockets w ∧ threads w' = threads w
    ∧ unavailable w' = unavailable w
    ∧ tasks w' = {[t]} ∪ tasks w
    ∧ trace w' = trace w ++ [EvCreateTask t]
    ∧ log w' = log w ++ [(INFO, "Started refresh task")].
Proof.
  intros Hdone. unfold _start_refresh_task. run.
  unfold create_task, task_done, task_cancel, emit, set_next_id, set_tasks, add_log.
  destruct (refresh_task h) as [t|] eqn:Ht; cbn.
  - rewrite (bool_decide_eq_false_2 _ (Hdone t eq_refl)). cbn.
    by eexists _, _.
  - by eexists _, _.
Qed.

(** [reconfigure] after its teardown step, whatever the closing call of the
    framework does: [running] tells whether the start-up went through.  If
    it did not, the call raised and nothing is live; if it did, one task,
    one socket and one thread were added, the root directory exists, and
    the outcome of the call is that of the closing call. *)
Lemma reconfigure_runs base config deps h w hm wm :
  _stop_server h w = (Ok tt, hm, wm) →
  nothing_live hm wm →
  ∃ r h' w' up,
    reconfigure base config deps h w = (r, h', w')
    ∧ port h' = configured_port config
    ∧ refresh_interval h' = configured_interval config
    ∧ sensors h' = configured_sensors config deps
    ∧ trace w' = trace wm ++ up
    ∧ fetched up = []
    ∧ Forall (λ e, is_file_event e = false) up
    ∧ files w' ⊆ files wm
    ∧ (∀ root, temp_dir h' = Some root →
         temp_dir hm = Some root
         ∨ (root ≠ "" ∧ root ∈ dirs w' ∧ EvMkdtemp root ∈ up
            ∧ ∀ p, within root p → files w' !! p = None))
    ∧ (if running h' then
         r = base
         ∧ ∃ t s th root pre,
             refresh_task h' = Some t ∧ tasks w' = {[t]} ∪ tasks wm
             ∧ server h' = Some s ∧ sockets w' = <[s := port h']> (sockets wm)
             ∧ server_thread h' = Some th
             ∧ threads w' = <[th := s]> (threads wm)
             ∧ temp_dir h' = Some root ∧ root ≠ "" ∧ root ∈ dirs w'
             ∧ (∀ p, within root p → files w' !! p = None)
             ∧ EvMkdtemp root ∈ pre
             ∧ up = pre ++ [EvBind s (port h'); EvThreadStart th s;
                            EvCreateTask t]
       else
         (∃ e, r = Raise e)
         ∧ nothing_live h' w'
         ∧ sockets w' = sockets wm ∧ threads w' = threads wm
         ∧ tasks w' = tasks wm)
    ∧ (configured_port config ≠ 0 →
       configured_port config ∈ unavailable wm →
       running h' = false).
Proof.
  intros Hstop (Hrun & Hsrv & Htask & Hthr).
  unfold reconfigure. unfold bind at 1. rewrite Hstop. cbv beta iota zeta.
  destruct (reconfigure_fields config deps
    (_setup_temp_directory ;;
     _start_server ;;
     _start_refresh_task ;;
     assign (set_running true) ;;
     ss <- self sensors ;;
     p <- self port ;;
     logger INFO ("SensorHost configured with " +:+ pretty (length ss)
                  +:+ " sensors on port " +:+ pretty p) ;;
     super_reconfigure base) hm wm) as [l0 Hfields].
  cbv zeta in Hfields. rewrite Hfields. clear Hfields.
  set (hc := set_sensors (configured_sensors config deps)
               (set_refresh_interval (configured_interval config)
                  (set_port (configured_port config) hm))).
  destruct (setup_temp_directory_runs hc (with_log l0 wm))
    as (r1 & h1 & w1 & evs1 & l1 & Hsetup & Hh1 & (Hs1 & Ht1 & Hk1 & Hu1)
        & Hf1 & Htr1 & Hfe1 & Hfi1 & Hl1 & Hroot1 & Hok1).
  cbn in Hs1, Ht1, Hk1, Hu1, Hf1, Htr1, Hl1.
  assert (running h1 = false) as Hoff1 by (rewrite Hh1; exact Hrun).
  unfold bind at 1. rewrite Hsetup.
  destruct r1 as [[]|e1].
  2:{ eexists _, _, _, evs1. split; [reflexivity|]. rewrite Hoff1.
      rewrite Hh1. cbn. do 3 (split; [done|]).
      split; [done|]. split; [done|]. split; [done|]. split; [done|].
      split; [intros root Hr; apply Hroot1; by rewrite Hh1|].
      split; [|done]. split; [by eexists|].
      unfold nothing_live. rewrite Hk1, Ht1, Hs1. cbn. done. }
  destruct (start_server_runs h1 w1)
    as (r2 & h2 & w2 & evs2 & l2 & Hstart & Hd2 & Hf2 & Hk2 & Hu2 & Htr2 & Hl2
        & Hres2 & Hbusy2).
  { by rewrite Hh1. }
  unfold bind at 1. rewrite Hstart.
  destruct r2 as [[]|e2].
  2:{ destruct Hres2 as (-> & Hs2 & Ht2 & ->).
      eexists _, _, _, evs1. split; [reflexivity|]. rewrite Hoff1.
      rewrite Hh1. cbn. do 3 (split; [done|]).
      split; [by rewrite Htr2, Htr1, app_nil_r|]. split; [done|]. split; [done|].
      split; [by rewrite Hf2|].
      split; [intros root Hr;
              destruct (Hroot1 root) as [?|(? & ? & ? & Hn)];
                [by rewrite Hh1|by left|right];
              rewrite Hd2; repeat split; try done;
              intros p Hp; rewrite Hf2; by apply Hn|].
      split; [split; [by eexists|]; unfold nothing_live;
              rewrite Hk2, Hk1, Ht2, Ht1, Hs2, Hs1; cbn; done|].
      done. }
  destruct Hres2 as (s & th & -> & Hs2 & Ht2 & ->).
  destruct (start_refresh_task_runs
              (set_server_thread (Some th) (set_server (Some s) h1)) w2)
    as (t & w3 & Htaskrun & Hd3 & Hf3 & Hs3 & Ht3 & Hu3 & Hk3 & Htr3 & Hl3).
  { cbn. rewrite Hh1. cbn. intros t' Ht'. rewrite Hk2, Hk1. by apply Htask. }
  unfold bind at 1. rewrite Htaskrun.
  unfold bind, assign, self, logger, effect, super_reconfigure. cbv beta iota.
  destruct (Hok1 eq_refl) as (root & Hroot & Hne & Hin & Hmk & Hnone).
  eexists _, _, _, (evs1 ++ [EvBind s (port h1); EvThreadStart th s; EvCreateTask t]).
  split; [reflexivity|].
  assert (port h1 = configured_port config) as Hport by (by rewrite Hh1).
  rewrite Hport in *.
  rewrite Hh1. cbn. do 3 (split; [done|]).
  split; [by rewrite Htr3, Htr2, Htr1, <- !app_assoc|].
  split; [by rewrite fetched_app, Hfe1|].
  split; [apply Forall_app; split; [done|by repeat constructor]|].
  split; [by rewrite Hf3, Hf2|].
  split; [intros root' Hr'; right; rewrite Hh1 in Hroot; cbn in Hroot;
          assert (root' = root) as -> by congruence;
          rewrite Hd3, Hd2; repeat split; try done; [set_solver|];
          intros p Hp; rewrite Hf3, Hf2; by apply Hnone|].
  split.
  2:{ intros Hb1 Hb2. exfalso.
      assert (is_raise (Ok tt : result unit) = true) as Habs
        by (apply Hbusy2; [done|by rewrite Hu1]).
      discriminate Habs. }
  split; [done|]. exists t, s, th, root, evs1.
  rewrite Hh1 in Hroot. cbn in Hroot.
  rewrite Hk3, Hk2, Hk1, Hs3, Hs2, Hs1, Ht3, Ht2, Ht1, Hd3, Hd2.
  repeat split; try done.
  intros p Hp. rewrite Hf3, Hf2. by apply Hnone.
Qed.


(** [reconfigure] as its own steps: after the teardown and the assignment of
    the configured fields it is the start-up sequence and the closing call. *)
Lemma reconfigure_steps base config deps h w hm wm :
  _stop_server h w = (Ok tt, hm, wm) →
  ∃ l,
    reconfigure base config deps h w
    = (_setup_temp_directory ;;
       _start_server ;;
       _start_refresh_task ;;
       assign (set_running true) ;;
       ss <- self sensors ;;
       p <- self port ;;
       logger INFO ("SensorHost configured with " +:+ pretty (length ss)
                    +:+ " sensors on port " +:+ pretty p) ;;
       super_reconfigure base)
        (set_sensors (configured_sensors config deps)
           (set_refresh_interval (configured_interval config)
              (set_port (configured_port config) hm)))
        (with_log l wm).
Proof.
  intros Hstop.
  unfold reconfigure. unfold bind at 1. rewrite Hstop. cbv beta iota zeta.
  destruct (reconfigure_fields config deps
    (_setup_temp_directory ;;
     _start_server ;;
     _start_refresh_task ;;
     assign (set_running true) ;;
     ss <- self sensors ;;
     p <- self port ;;
     logger INFO ("SensorHost configured with " +:+ pretty (length ss)
                  +:+ " sensors on port " +:+ pretty p) ;;
     super_reconfigure base) hm wm) as [l Hl].
  cbv zeta in Hl. exists l. by rewrite Hl.
Qed.

(** What follows the directory setup in [reconfigure] touches no file or
    directory, keeps the sensors and the root, and makes no root directory. *)
Lemma startup_tail base h w r h' w' :
  (_start_server ;;
   _start_refresh_task ;;
   assign (set_running true) ;;
   ss <- self sensors ;;
   p <- self port ;;
   logger INFO ("SensorHost configured with " +:+ pretty (length ss)
                +:+ " sensors on port " +:+ pretty p) ;;
   super_reconfigure base) h w = (r, h', w') →
  dirs w' = dirs w ∧ files w' = files w ∧ clock w' = clock w
  ∧ temp_dir h' = temp_dir h ∧ sensors h' = sensors h
  ∧ ∃ evs, trace w' = trace w ++ evs ∧ ∀ root, EvMkdtemp root ∉ evs.
Proof.
  unfold _start_server, _start_refresh_task, super_reconfigure. run. run_proc.
  unfold HTTPServer, thread_start, create_task, set_next_id. cbn.
  repeat (case_match; simplify_eq/=).
  all: intros; simplify_eq/=.
  all: do 5 (split; [done|]).
  all: first [ exists []; split; [by rewrite app_nil_r|]
             | eexists; split; [rewrite <- ?app_assoc; reflexivity|] ].
  all: intros root Hin.
  all: repeat (apply elem_of_cons in Hin as [Hin|Hin]; [discriminate Hin|]).
  all: by apply elem_of_nil in Hin.
Qed.

(** A root directory made by [_setup_temp_directory] is recorded in
    [self.temp_dir] and exists when the method ends, however it ends. *)
Lemma setup_records_root h w r h' w' :
  _setup_temp_directory h w = (r, h', w') →
  ∃ evs, trace w' = trace w ++ evs
    ∧ ∀ root, EvMkdtemp root ∈ evs →
        temp_dir h' = Some root ∧ root ≠ "" ∧ root ∈ dirs w'.
Proof.
  unfold _setup_temp_directory.
  set (w0 := if truthy (temp_dir h) then rmtree (default "" (temp_dir h)) w else w).
  assert (∃ evs0, trace w0 = trace w ++ evs0 ∧ ∀ root, EvMkdtemp root ∉ evs0)
    as (evs0 & Htr0 & Hno0).
  { unfold w0. destruct (truthy (temp_dir h)); cbn.
    - eexists. split; [reflexivity|]. intros root Hin.
      apply elem_of_cons in Hin as [Hin|Hin]; [discriminate Hin|].
      by apply elem_of_nil in Hin.
    - exists []. split; [by rewrite app_nil_r|]. intros root Hin.
      by apply elem_of_nil in Hin. }
  destruct (mkdtemp_runs w0) as (r1 & wk & Hmk & Hp1 & Hf1 & Hl1 & Hr1).
  assert (∀ k : string → M unit,
            (old <- self temp_dir ;;
             (if truthy old then effect (rmtree (default "" old)) else ret tt) ;;
             d <- call (mkdtemp "/dev/shm" "sensor_host_") ;; k d) h w
            = match r1 with
              | Ok d => k d h wk
              | Raise e => (Raise e, h, wk)
              end) as Hhead.
  { intros k. unfold bind, self, call, effect, ret. fold w0.
    destruct (truthy (temp_dir h)); cbn; fold w0; rewrite Hmk; by destruct r1. }
  clearbody w0. rewrite Hhead. clear Hhead.
  destruct r1 as [root|e].
  2:{ subst wk. intros [= <- <- <-]. exists evs0. split; [done|].
      intros root Hin. by apply Hno0 in Hin. }
  destruct Hr1 as (Hne & Hfresh & Hd1 & Htr1).
  destruct (makedirs_loop_runs (sensors h) (set_temp_dir (Some root) h) wk)
    as (r2 & w2 & made & Hloop & Hp2 & Hf2 & Hd2 & Hl2 & Htr2).
  cbv zeta in Hloop.
  unfold bind at 1. unfold assign at 1.
  unfold bind at 1. unfold self at 1. cbn [sensors set_temp_dir].
  unfold bind at 1. rewrite Hloop.
  assert (∀ root', EvMkdtemp root' ∈ evs0 ++ [EvMkdtemp root] ++ map EvMakedirs made →
                   root' = root) as Honly.
  { intros root' Hin. apply elem_of_app in Hin as [Hin|Hin]; [by apply Hno0 in Hin|].
    apply elem_of_cons in Hin as [Hin|Hin]; [congruence|].
    apply list_elem_of_fmap in Hin as (x & Hx & _). discriminate Hx. }
  destruct r2 as [[]|e].
  - unfold bind, self, logger, effect. intros [= <- <- <-].
    exists (evs0 ++ [EvMkdtemp root] ++ map EvMakedirs made).
    split; [cbn; by rewrite Htr2, Htr1, Htr0, <- !app_assoc|].
    intros root' Hin. apply Honly in Hin as ->. cbn.
    repeat split; [done|]. apply Hd2. rewrite Hd1. set_solver.
  - intros [= <- <- <-].
    exists (evs0 ++ [EvMkdtemp root] ++ map EvMakedirs made).
    split; [by rewrite Htr2, Htr1, Htr0, <- !app_assoc|].
    intros root' Hin. apply Honly in Hin as ->. cbn.
    repeat split; [done|]. apply Hd2. rewrite Hd1. set_solver.
Qed.

(** A root directory made during [reconfigure] is recorded in
    [self.temp_dir] and exists when the call ends, however it ends. *)
Lemma reconfigure_created_root base config deps h w r h' w' :
  reconfigure base config deps h w = (r, h', w') →
  ∃ evs, trace w' = trace w ++ evs
    ∧ ∀ root, EvMkdtemp root ∈ evs →
        temp_dir h' = Some root ∧ root ≠ "" ∧ root ∈ dirs w'.
Proof.
  intros Hrun.
  destruct (stop_server_runs h w)
    as (hm & wm & down & Hstop & _ & _ & _ & _ & _ & _ & _ & _ & _ & _
        & _ & Htr & Hdown & _).
  destruct (reconfigure_steps base config deps h w hm wm Hstop) as [l Hsteps].
  rewrite Hsteps in Hrun. unfold bind at 1 in Hrun.
  destruct (_setup_temp_directory _ _) as [[r1 h1] w1] eqn:Hsetup.
  apply setup_records_root in Hsetup as (evs1 & Htr1 & Hrec). cbn in Htr1.
  assert (∀ root, EvMkdtemp root ∉ down) as Hnod.
  { intros root Hin. rewrite Forall_forall in Hdown. by apply Hdown in Hin. }
  destruct r1 as [[]|e].
  - apply startup_tail in Hrun as (Hd & _ & _ & Ht & _ & evs2 & Htr2 & Hno2).
    exists (down ++ evs1 ++ evs2).
    split; [by rewrite Htr2, Htr1, Htr, <- !app_assoc|].
    intros root Hin. rewrite Ht, Hd. apply Hrec.
    apply elem_of_app in Hin as [Hin|Hin]; [by apply Hnod in Hin|].
    apply elem_of_app in Hin as [Hin|Hin]; [done|by apply Hno2 in Hin].
  - simplify_eq. exists (down ++ evs1).
    split; [by rewrite Htr1, Htr, <- !app_assoc|].
    intros root Hin. apply Hrec.
    apply elem_of_app in Hin as [Hin|Hin]; [by apply Hnod in Hin|done].
Qed.

(** The per-sensor loop of [_setup_temp_directory] fails only on a path that
    is already a file. *)
Lemma makedirs_loop_error ss :
  ∀ h w e h' w',
    for_each ss (λ sensor,
      root <- self temp_dir ;;
      let sensor_dir := os_path_join (default "" root) (name sensor) in
      call (makedirs sensor_dir)) h w
    = (Raise e, h', w') →
    ∃ p, e = OSError ("File exists: " +:+ p).
Proof.
  unfold bind, self, call, makedirs. cbv zeta.
  induction ss as [|s ss IH]; intros h w e h' w' Hrun.
  - cbn in Hrun. unfold ret in Hrun. discriminate Hrun.
  - rewrite for_each_cons in Hrun. cbv beta iota in Hrun.
    destruct (bool_decide (_ ∈ dom (files w))).
    + injection Hrun as <- _ _. by eexists.
    + cbv beta iota in Hrun. by eapply IH.
Qed.

(** [_setup_temp_directory] never fails the way a bind does. *)
Lemma setup_error h w e h' w' :
  _setup_temp_directory h w = (Raise e, h', w') →
  e ≠ OSError "Address already in use"
  ∧ e ≠ OverflowError "bind(): port must be 0-65535.".
Proof.
  unfold _setup_temp_directory.
  set (w0 := if truthy (temp_dir h) then rmtree (default "" (temp_dir h)) w else w).
  destruct (mkdtemp "/dev/shm" "sensor_host_" w0) as [r1 wk] eqn:Hmk.
  assert (∀ k : string → M unit,
            (old <- self temp_dir ;;
             (if truthy old then effect (rmtree (default "" old)) else ret tt) ;;
             d <- call (mkdtemp "/dev/shm" "sensor_host_") ;; k d) h w
            = match r1 with
              | Ok d => k d h wk
              | Raise e => (Raise e, h, wk)
              end) as Hhead.
  { intros k. unfold bind, self, call, effect, ret. fold w0.
    destruct (truthy (temp_dir h)); cbn; fold w0; rewrite Hmk; by destruct r1. }
  clearbody w0. rewrite Hhead. clear Hhead.
  destruct r1 as [root|e1].
  2:{ intros [= <- _ _]. revert Hmk. unfold mkdtemp.
      repeat case_match; intros [= <- _]; done. }
  destruct (makedirs_loop_runs (sensors h) (set_temp_dir (Some root) h) wk)
    as (r2 & w2 & made & Hloop & _).
  cbv zeta in Hloop.
  unfold bind at 1. unfold assign at 1.
  unfold bind at 1. unfold self at 1. cbn [sensors set_temp_dir].
  unfold bind at 1. rewrite Hloop.
  destruct r2 as [[]|e2].
  - unfold bind, self, logger, effect. discriminate.
  - intros [= <- _ _].
    apply makedirs_loop_error in Hloop as [p ->]. done.
Qed.

(** When [reconfigure] ends with the failure of a bind, the directory setup
    before it had succeeded: the root it made is recorded and exists. *)
Lemma bind_failure_after_setup base config deps h w e h' w' :
  reconfigure base config deps h w = (Raise e, h', w') →
  running h' = false →
  e = OSError "Address already in use"
  ∨ e = OverflowError "bind(): port must be 0-65535." →
  ∃ root,
    temp_dir h' = Some root ∧ root ≠ "" ∧ root ∈ dirs w'
    ∧ EvMkdtemp root ∈ drop (length (trace w)) (trace w').
Proof.
  intros Hrun Hoff He.
  destruct (stop_server_runs h w)
    as (hm & wm & down & Hstop & _ & _ & _ & _ & _ & _ & _ & _ & _ & _
        & _ & Htr & _).
  destruct (reconfigure_steps base config deps h w hm wm Hstop) as [l Hsteps].
  rewrite Hsteps in Hrun. unfold bind at 1 in Hrun.
  destruct (setup_temp_directory_runs
              (set_sensors (configured_sensors config deps)
                 (set_refresh_interval (configured_interval config)
                    (set_port (configured_port config) hm)))
              (with_log l wm))
    as (r1 & h1 & w1 & evs & l1 & Hsetup & _ & _ & _ & Htr1 & _ & _ & _ & _ & Hok).
  rewrite Hsetup in Hrun. cbn in Htr1.
  destruct r1 as [[]|e1].
  - destruct (Hok eq_refl) as (root & Hroot & Hne & Hin & Hmk & _).
    apply startup_tail in Hrun as (Hd & _ & _ & Ht & _ & evs2 & Htr2 & _).
    exists root. rewrite Ht, Hd. do 3 (split; [done|]).
    rewrite Htr2, Htr1, Htr, <- !app_assoc, drop_app_length.
    apply elem_of_app. right. apply elem_of_app. by left.
  - simplify_eq. apply setup_error in Hsetup as [H1 H2].
    by destruct He.
Qed.

(** ** Failed start-up *)

Lemma run_parts {A : Type} (x : result A * SensorHost * World) :
  x = (outcome x, host_after x, world_after x).
Proof. by destruct x as [[??]?]. Qed.

(** C4 as stated fails: when the port cannot be bound, start-up fails and
    [reconfigure] raises, yet the root directory created for the attempt is
    still there. *)
Lemma failed_start_keeps_root_directory :
  ¬ (∀ base config deps h w r h' w',
       reconfigure base config deps h w = (r, h', w') →
       running h' = false →
       is_raise r = true →
       dirs w' ⊆ dirs w).
Proof.
  intros H.
  pose proof (H demo_base (demo_config 9000%Q) demo_deps __init__ demo_world _ _ _
                (run_parts _)) as Hsub.
  assert ("/dev/shm/sensor_host_tq3x9k2a" ∉ dirs demo_world) as Hout.
  { apply (bool_decide_unpack _). vm_compute. exact I. }
  apply Hout, Hsub; [vm_compute; reflexivity|vm_compute; reflexivity|].
  apply (bool_decide_unpack _). vm_compute. exact I.
Qed.

(** C4 (amended): a port that cannot be bound makes start-up fail, and
    whenever start-up fails ([running] is left false) [reconfigure] raises
    and nothing is left live: the instance holds no server, no live task and
    no alive thread, and no socket, thread or task was added.  The root
    directory is not rolled back: a root created during the call is still
    on disk and recorded in [self.temp_dir] when the call ends, and when
    the failure is that of the bind there is such a root.  [__del__]
    does not remove it either, since it does nothing while [running] is
    false; only the teardown that opens the next [reconfigure] does. *)
Theorem failed_reconfigure_leaves_nothing_live base config deps h w r h' w' :
  reconfigure base config deps h w = (r, h', w') →
  (configured_port config ≠ 0 →
   configured_port config ∈ unavailable w →
   running h' = false)
  ∧ (running h' = false →
     is_raise r = true
     ∧ nothing_live h' w'
     ∧ tasks w' ⊆ tasks w ∧ sockets w' ⊆ sockets w ∧ threads w' ⊆ threads w
     ∧ (at_most_one h w → tasks w' = ∅ ∧ sockets w' = ∅ ∧ threads w' = ∅)
     ∧ (∀ root, EvMkdtemp root ∈ drop (length (trace w)) (trace w') →
          temp_dir h' = Some root ∧ root ≠ "" ∧ root ∈ dirs w')
     ∧ (r = Raise (OSError "Address already in use")
        ∨ r = Raise (OverflowError "bind(): port must be 0-65535.") →
        ∃ root, temp_dir h' = Some root ∧ root ≠ "" ∧ root ∈ dirs w'
                ∧ EvMkdtemp root ∈ drop (length (trace w)) (trace w'))
     ∧ __del__ h' w' = (Ok tt, h', w')
     ∧ ∃ h2 w2,
         _stop_server h' w' = (Ok tt, h2, w2)
         ∧ no_root h2 w2
         ∧ ∀ root, temp_dir h' = Some root → root ≠ "" →
             os_path_exists w2 root = false).
Proof.
  intros Hrun.
  destruct (stop_server_runs h w)
    as (hm & wm & down & Hstop & Hlive & _ & _ & _ & _ & Hk & Hs & Ht & _ & _
        & Hu & _ & _ & _ & Hempty & _).
  destruct (reconfigure_runs base config deps h w hm wm Hstop Hlive)
    as (r0 & h0 & w0 & up & Hrun' & _ & _ & _ & _ & _ & _ & _ & _ & Hres & Hbusy).
  rewrite Hrun in Hrun'. simplify_eq.
  split; [intros ? ?; apply Hbusy; [done|by rewrite Hu]|].
  intros Hoff. rewrite Hoff in Hres.
  destruct Hres as ([e ->] & Hlive' & Hs' & Ht' & Hk').
  split; [done|]. split; [done|].
  rewrite Hs', Ht', Hk'. do 3 (split; [done|]).
  split; [done|].
  split.
  { destruct (reconfigure_created_root _ _ _ _ _ _ _ _ Hrun) as (evs & Htr & Hrec).
    intros root. rewrite Htr, drop_app_length. apply Hrec. }
  split.
  { intros Hbind. apply (bind_failure_after_setup _ _ _ _ _ _ _ _ Hrun Hoff).
    destruct Hbind as [Hb|Hb]; injection Hb as ->; [by left|by right]. }
  split; [unfold __del__, bind, self, ret; by rewrite Hoff|].
  destruct (stop_server_runs h0 w0)
    as (h2 & w2 & down2 & Hstop2 & _ & Hroot2 & _ & _ & _ & _ & _ & _ & _ & _
        & _ & _ & _ & _ & _ & Hgone & _).
  by exists h2, w2.
Qed.

(** ** Status *)



(** ** One Generation at a time *)

Lemma teardown_not_creation e : is_teardown e = true → is_creation e = false.
Proof. by destruct e. Qed.

Lemma dir_exists w p : p ∈ dirs w → os_path_exists w p = true.
Proof.
  intros Hp. unfold os_path_exists, paths. apply bool_decide_eq_true.
  exists p. split; [set_solver|by left].
Qed.

Lemma at_most_one_fresh h w : fresh_process w → at_most_one h w.
Proof.
  intros (Hk & Hs & Ht). unfold at_most_one. rewrite Hk, Hs, Ht.
  repeat split.
  - intros t Hin. by apply elem_of_empty in Hin.
  - intros s [x Hx]. by rewrite lookup_empty in Hx.
  - intros t [x Hx]. by rewrite lookup_empty in Hx.
Qed.

(** [reconfigure] keeps the invariant: it builds exactly one Generation when
    its start-up succeeds, and leaves no task, socket or thread otherwise. *)
Lemma reconfigure_one_generation base config deps h w r h' w' :
  at_most_one h w →
  reconfigure base config deps h w = (r, h', w') →
  at_most_one h' w'
  ∧ (running h' = true → r = base ∧ live_generation h' w')
  ∧ (running h' = false → fresh_process w').
Proof.
  intros Hone Hrun.
  destruct (stop_server_runs h w)
    as (hm & wm & down & Hstop & Hlive & _ & _ & _ & _ & _ & _ & _ & _ & _
        & _ & _ & _ & _ & Hempty & _).
  destruct (Hempty Hone) as (Hk & Hs & Ht).
  destruct (reconfigure_runs base config deps h w hm wm Hstop Hlive)
    as (r0 & h0 & w0 & up & Hrun' & _ & _ & _ & _ & _ & _ & _ & _ & Hres & _).
  rewrite Hrun in Hrun'. simplify_eq.
  destruct (running h0) eqn:Hon.
  - destruct Hres as (Hr & t & s & th & root & pre & Ht0 & Hk0 & Hs0 & Hso0
                      & Hth0 & Hthr0 & Hroot & Hne & Hin & _).
    rewrite Hk, union_empty_r_L in Hk0. rewrite Hs in Hso0. rewrite Ht in Hthr0.
    split; [|split; [|discriminate]].
    + unfold at_most_one. rewrite Hk0, Hso0, Hthr0. repeat split.
      * intros t' ->%elem_of_singleton. done.
      * intros s' [x Hx]. apply lookup_insert_Some in Hx as [[<- _]|[_ Hx]]; [done|].
        by rewrite lookup_empty in Hx.
      * intros t' [x Hx]. apply lookup_insert_Some in Hx as [[<- _]|[_ Hx]]; [done|].
        by rewrite lookup_empty in Hx.
    + intros _. split; [done|]. split; [done|]. exists t, s, th, root.
      by repeat split.
  - destruct Hres as (_ & _ & Hs' & Ht' & Hk').
    assert (fresh_process w0) as Hfresh.
    { unfold fresh_process. by rewrite Hk', Hs', Ht'. }
    split; [by apply at_most_one_fresh|]. split; [discriminate|done].
Qed.

(** C7: a second [reconfigure] first tears the previous Generation down and
    only then builds the new one.  When its teardown step ends, no task,
    socket or thread is left, the previous root directory does not exist,
    and no resource has been created yet; where the first call had started
    a Generation, its task was cancelled, its server shut down and closed,
    its root removed.  Everything created comes after that, and when the
    second call's start-up has succeeded exactly one Generation is live and
    the call ends as the framework's closing call does. *)
Theorem reconfigure_twice_one_generation
    base1 base2 config1 deps1 config2 deps2 h0 w0 r1 h1 w1 r2 h2 w2 :
  at_most_one h0 w0 →
  reconfigure base1 config1 deps1 h0 w0 = (r1, h1, w1) →
  reconfigure base2 config2 deps2 h1 w1 = (r2, h2, w2) →
  running h2 = true →
  ∃ hm wm down up,
    _stop_server h1 w1 = (Ok tt, hm, wm)
    ∧ trace wm = trace w1 ++ down
    ∧ trace w2 = trace wm ++ up
    ∧ Forall (λ e, is_creation e = false) down
    ∧ tasks wm = ∅ ∧ sockets wm = ∅ ∧ threads wm = ∅
    ∧ (∀ root, temp_dir h1 = Some root → root ≠ "" →
         os_path_exists wm root = false)
    ∧ (running h1 = true →
         ∃ t s root,
           refresh_task h1 = Some t ∧ server h1 = Some s
           ∧ temp_dir h1 = Some root
           ∧ EvCancel t ∈ down ∧ EvShutdown s ∈ down
           ∧ EvServerClose s ∈ down ∧ EvRmtree root ∈ down)
    ∧ r2 = base2
    ∧ live_generation h2 w2
    ∧ at_most_one h2 w2.
Proof.
  intros Hone0 Hrun1 Hrun2 Hon2.
  destruct (reconfigure_one_generation _ _ _ _ _ _ _ _ Hone0 Hrun1)
    as (Hone1 & Hgen1 & _).
  destruct (reconfigure_one_generation _ _ _ _ _ _ _ _ Hone1 Hrun2)
    as (Hone2 & Hgen2 & _).
  destruct (Hgen2 Hon2) as [Hr2 Hlive2].
  destruct (stop_server_runs h1 w1)
    as (hm & wm & down & Hstop & Hlive & _ & _ & _ & _ & _ & _ & _ & _ & _
        & _ & Htr & Hdown & _ & Hempty & Hgone & Hcancel & Hshut & Hrm).
  destruct (Hempty Hone1) as (Hk & Hs & Ht).
  destruct (reconfigure_runs base2 config2 deps2 h1 w1 hm wm Hstop Hlive)
    as (r0 & h0' & w0' & up & Hrun' & _ & _ & _ & Hup & _).
  rewrite Hrun2 in Hrun'. simplify_eq.
  exists hm, wm, down, up.
  do 3 (split; [done|]).
  split; [eapply Forall_impl; [exact Hdown|]; apply teardown_not_creation|].
  do 4 (split; [done|]).
  split; [|done].
  intros Hon1. destruct (Hgen1 Hon1) as (_ & _ & t & s & th & root & Ht1 & Hk1
                                          & Hs1 & _ & _ & _ & Hroot & Hne & Hin).
  exists t, s, root. do 3 (split; [done|]).
  split; [apply Hcancel; [done|]; rewrite Hk1; set_solver|].
  destruct (Hshut s Hs1) as [? ?]. do 2 (split; [done|]).
  apply Hrm; [done|done|by apply dir_exists].
Qed.

(** ** The first snapshot *)

Lemma as_dir_nonempty p : as_dir p ≠ "".
Proof.
  unfold as_dir. destruct (ends_with_slash p) eqn:E.
  - by destruct p.
  - destruct p; [done|]. by rewrite append_cons.
Qed.

Lemma as_dir_extends p : ∃ t, as_dir p = p +:+ t.
Proof.
  unfold as_dir. destruct (ends_with_slash p).
  - exists "". induction p as [|c p IH]; [done|]. by rewrite append_cons, <- IH.
  - by exists "/".
Qed.

Lemma append_nonempty_l (a b : string) : a ≠ "" → a +:+ b ≠ "".
Proof. destruct a; [done|]. by rewrite append_cons. Qed.

(** For a sensor whose name is not an absolute path, [current.json] lies
    below the root directory. *)
Lemma current_file_within root sensor :
  root ≠ "" →
  starts_with_slash (name sensor) = false →
  within root (current_file root sensor).
Proof.
  intros Hroot Hrel. right. unfold current_file.
  rewrite (os_path_join_relative root (name sensor)) by done.
  rewrite (bool_decide_eq_false_2 _ Hroot).
  rewrite (os_path_join_relative _ "current.json") by done.
  rewrite bool_decide_eq_false_2
    by (apply append_nonempty_l, as_dir_nonempty).
  destruct (as_dir_extends (as_dir root +:+ name sensor)) as [t ->].
  rewrite !append_assoc. apply prefix_append.
Qed.

Lemma update_all_runs h w :
  ∃ w' evs l,
    _update_all_sensor_readings h w = (Ok tt, h, w')
    ∧ same_resources w w'
    ∧ trace w' = trace w ++ evs
    ∧ fetched evs = map name (sensors h)
    ∧ log w' = log w ++ l
    ∧ (∀ s, s ∈ sensors h →
         (∃ root, temp_dir h = Some root
            ∧ EvReplace (temp_file root s) (current_file root s) ∈ evs)
         ∨ (∃ e, (ERROR, "Failed to update readings for sensor "
                         +:+ name s +:+ ": " +:+ str_exn e) ∈ l)).
Proof.
  destruct (poll_pass h (sensors h) w)
    as (w' & evs & l & Hpass & Hres & _ & Htr & Hf & Hl & _ & Hpub).
  exists w', evs, l. split; [|done].
  unfold _update_all_sensor_readings, bind, self. by rewrite Hpass.
Qed.

Lemma slept_app (a b : list Event) : slept (a ++ b) = slept a ++ slept b.
Proof. unfold slept. apply omap_app. Qed.

(** One sensor update never sleeps; without a root directory it raises and
    touches no file. *)
Lemma update_step_quiet sensor h w :
  ∃ r w' evs,
    _update_sensor_reading sensor h w = (r, h, w')
    ∧ trace w' = trace w ++ evs
    ∧ slept evs = []
    ∧ (temp_dir h = None → is_raise r = true ∧ files w' = files w).
Proof.
  unfold _update_sensor_reading. run. run_fs. cbn.
  repeat (case_match; simplify_eq/=).
  all: rewrite <- ?app_assoc; cbn.
  all: eexists _, _, _; split; [reflexivity|]; cbn.
  all: split; [reflexivity|]; split; [done|].
  all: try done.
Qed.

Lemma poll_pass_quiet h ss :
  ∀ w, ∃ w' evs,
    for_each ss (λ sensor,
      try_except (_update_sensor_reading sensor)
        (λ e, logger ERROR ("Failed to update readings for sensor "
                            +:+ name sensor +:+ ": " +:+ str_exn e))) h w
    = (Ok tt, h, w')
    ∧ trace w' = trace w ++ evs
    ∧ slept evs = []
    ∧ (temp_dir h = None → files w' = files w).
Proof.
  induction ss as [|s ss IH]; intros w.
  - exists w, []. cbn. unfold ret. by rewrite app_nil_r.
  - destruct (update_step_quiet s h w) as (r & w1 & evs1 & Hrun & Htr & Hs & Hnone).
    rewrite for_each_cons. unfold try_except at 1. rewrite Hrun.
    destruct r as [[]|e].
    + destruct (IH w1) as (w' & evs & Hrest & Htr' & Hs' & Hnone').
      rewrite Hrest. exists w', (evs1 ++ evs).
      split; [done|]. split; [by rewrite Htr', Htr, <- app_assoc|].
      split; [by rewrite slept_app, Hs, Hs'|].
      intros Hn. destruct (Hnone Hn) as [? _]. done.
    + rewrite logger_run.
      destruct (IH (add_log ERROR
                      ("Failed to update readings for sensor "
                       +:+ name s +:+ ": " +:+ str_exn e) w1))
        as (w' & evs & Hrest & Htr' & Hs' & Hnone').
      rewrite Hrest. exists w', (evs1 ++ evs).
      split; [done|]. split; [rewrite Htr'; cbn; by rewrite Htr, <- app_assoc|].
      split; [by rewrite slept_app, Hs, Hs'|].
      intros Hn. rewrite (Hnone' Hn). cbn. by destruct (Hnone Hn).
Qed.

(** The refresh loop, for any number of turns: it never raises and leaves
    the instance and its sockets, threads, tasks and directories alone. *)
Lemma refresh_loop_runs fuel me h :
  ∀ w, ∃ w' evs,
    _refresh_readings_loop fuel me h w = (Ok tt, h, w')
    ∧ same_resources w w'
    ∧ trace w' = trace w ++ evs
    ∧ (running h = false → w' = w)
    ∧ (running h = true → me ∈ tasks w →
       slept evs = replicate fuel (refresh_interval h)
       ∧ fetched evs = concat (replicate fuel (map name (sensors h))))
    ∧ (me ∉ tasks w →
       fetched evs = [] ∧ files w' = files w
       ∧ Forall (λ e, ∃ d, e = EvSleep d) evs ∧ (length evs ≤ 1)%nat).
Proof.
  induction fuel as [|n IH]; intros w; cbn [_refresh_readings_loop].
  - exists w, []. unfold ret. rewrite app_nil_r.
    repeat split; first [done | cbn; lia | constructor].
  - unfold bind at 1. unfold self at 1.
    destruct (running h) eqn:Hrun.
    2:{ exists w, []. unfold ret. rewrite app_nil_r.
        repeat split; first [done | cbn; lia | constructor]. }
    unfold bind at 1. unfold self at 1.
    unfold bind at 1. unfold effect at 1.
    unfold bind at 1. unfold env at 1.
    unfold task_done.
    change (tasks (asyncio_sleep (refresh_interval h) w)) with (tasks w).
    destruct (decide (me ∈ tasks w)) as [Hme|Hme].
    + rewrite (bool_decide_eq_true_2 _ Hme). cbn [negb].
      destruct (update_all_runs h (asyncio_sleep (refresh_interval h) w))
        as (w1 & evs1 & l1 & Hall & Hres1 & Htr1 & Hf1 & _).
      destruct (poll_pass_quiet h (sensors h) (asyncio_sleep (refresh_interval h) w))
        as (w1' & evs1' & Hpass & Htr1' & Hs1 & _).
      assert (w1' = w1) as ->.
      { revert Hall. unfold _update_all_sensor_readings, bind, self.
        rewrite Hpass. by intros [= ->]. }
      assert (evs1' = evs1) as -> by (rewrite Htr1 in Htr1'; by apply app_inv_head in Htr1').
      unfold bind at 1. unfold try_except at 1. rewrite Hall.
      destruct (IH w1) as (w' & evs & Hloop & Hres & Htr & _ & Hlive & _).
      rewrite Hloop.
      exists w', (EvSleep (refresh_interval h) :: evs1 ++ evs).
      split; [done|].
      split; [eapply same_resources_trans; [|exact Hres];
              eapply same_resources_trans; [|exact Hres1]; done|].
      split; [rewrite Htr, Htr1; cbn; by rewrite <- !app_assoc|].
      split; [done|]. split; [|done].
      intros _ _. destruct Hlive as [Hsl Hfe]; [done| |].
      { destruct Hres1 as (_ & _ & _ & ->). done. }
      split.
      * change (EvSleep (refresh_interval h) :: evs1 ++ evs)
          with ([EvSleep (refresh_interval h)] ++ evs1 ++ evs).
        by rewrite !slept_app, Hs1, Hsl.
      * change (EvSleep (refresh_interval h) :: evs1 ++ evs)
          with ([EvSleep (refresh_interval h)] ++ evs1 ++ evs).
        by rewrite !fetched_app, Hf1, Hfe.
    + rewrite (bool_decide_eq_false_2 _ Hme). cbn [negb]. unfold ret.
      exists (asyncio_sleep (refresh_interval h) w), [EvSleep (refresh_interval h)].
      split; [done|]. split; [done|]. split; [done|]. split; [done|].
      split; [done|]. intros _. split; [done|]. split; [done|].
      split; [|done]. constructor; [by eexists|constructor].
Qed.

(** While the instance is running and the task is live, the loop's events
    fall into turns, one per iteration: a sleep for the whole interval, then
    a poll pass that fetches every sensor in order and never sleeps. *)
Lemma refresh_loop_turns fuel me h :
  running h = true →
  ∀ w, me ∈ tasks w →
    ∃ w' turns,
      _refresh_readings_loop fuel me h w = (Ok tt, h, w')
      ∧ same_resources w w'
      ∧ trace w' = trace w ++ concat turns
      ∧ length turns = fuel
      ∧ Forall (loop_turn h) turns.
Proof.
  intros Hrun. induction fuel as [|n IH]; intros w Hme; cbn [_refresh_readings_loop].
  - exists w, []. unfold ret. cbn. rewrite app_nil_r.
    repeat split; first [done | constructor].
  - unfold bind at 1. unfold self at 1. rewrite Hrun.
    unfold bind at 1. unfold self at 1.
    unfold bind at 1. unfold effect at 1.
    unfold bind at 1. unfold env at 1.
    unfold task_done.
    change (tasks (asyncio_sleep (refresh_interval h) w)) with (tasks w).
    rewrite (bool_decide_eq_true_2 _ Hme). cbn [negb].
    destruct (update_all_runs h (asyncio_sleep (refresh_interval h) w))
      as (w1 & evs1 & l1 & Hall & Hres1 & Htr1 & Hf1 & _).
    destruct (poll_pass_quiet h (sensors h) (asyncio_sleep (refresh_interval h) w))
      as (w1' & evs1' & Hpass & Htr1' & Hs1 & _).
    assert (w1' = w1) as ->.
    { revert Hall. unfold _update_all_sensor_readings, bind, self.
      rewrite Hpass. by intros [= ->]. }
    assert (evs1' = evs1) as -> by (rewrite Htr1 in Htr1'; by apply app_inv_head in Htr1').
    unfold bind at 1. unfold try_except at 1. rewrite Hall.
    destruct (IH w1) as (w' & turns & Hloop & Hres & Htr & Hlen & Hturns).
    { destruct Hres1 as (_ & _ & _ & ->). done. }
    rewrite Hloop.
    exists w', ((EvSleep (refresh_interval h) :: evs1) :: turns).
    split; [done|].
    split; [eapply same_resources_trans; [|exact Hres];
            eapply same_resources_trans; [|exact Hres1]; done|].
    split; [rewrite Htr, Htr1; cbn; by rewrite <- !app_assoc|].
    split; [cbn; by rewrite Hlen|].
    constructor; [|done]. by exists evs1.
Qed.

(** C10: a [reconfigure] whose start-up succeeds fetches no sensor and
    writes no file, and leaves no [current.json] for any configured sensor
    (named by a relative path).  The refresh task it creates begins every
    turn by sleeping for the whole configured interval and only then polls:
    the first event of the loop is that sleep, so the first snapshot appears
    only after it or after a manual refresh. *)
Theorem no_snapshot_before_first_interval base config deps h w r h' w' :
  reconfigure base config deps h w = (r, h', w') →
  running h' = true →
  (∀ sensor, sensor ∈ sensors h' → starts_with_slash (name sensor) = false) →
  (∃ root,
     temp_dir h' = Some root
     ∧ ∀ sensor, sensor ∈ sensors h' →
         files w' !! current_file root sensor = None)
  ∧ (∃ evs, trace w' = trace w ++ evs
       ∧ fetched evs = []
       ∧ Forall (λ e, is_file_event e = false) evs)
  ∧ refresh_interval h' = configured_interval config
  ∧ ∃ t, refresh_task h' = Some t ∧ t ∈ tasks w'
      ∧ ∀ fuel, ∃ w2 turns,
          _refresh_readings_loop fuel t h' w' = (Ok tt, h', w2)
          ∧ trace w2 = trace w' ++ concat turns
          ∧ length turns = fuel
          ∧ Forall (loop_turn h') turns.
Proof.
  intros Hrun Hon Hrel.
  destruct (stop_server_runs h w)
    as (hm & wm & down & Hstop & Hlive & _ & _ & _ & _ & _ & _ & _ & _ & _
        & _ & Htr & Hdown & _).
  destruct (reconfigure_runs base config deps h w hm wm Hstop Hlive)
    as (r0 & h0 & w0 & up & Hrun' & _ & Hi & _ & Hup & Hfe & Hfi & _ & _ & Hres & _).
  rewrite Hrun in Hrun'. simplify_eq. rewrite Hon in Hres.
  destruct Hres as (_ & t & s & th & root & pre & Ht0 & Hk0 & _ & _ & _ & _
                    & Hroot & Hne & _ & Hnone & _).
  split; [exists root; split; [done|]; intros sensor Hs;
          by apply Hnone, current_file_within, Hrel|].
  split.
  { exists (down ++ up). split; [by rewrite Hup, Htr, <- app_assoc|].
    split; [rewrite fetched_app, Hfe, app_nil_r|apply Forall_app; split; [|done]].
    - clear -Hdown. induction Hdown as [|e l He _ IH]; [done|]. by destruct e.
    - eapply Forall_impl; [exact Hdown|]. intros e He. by destruct e. }
  split; [done|].
  assert (t ∈ tasks w0) as Hlive_t by (rewrite Hk0; set_solver).
  exists t. split; [done|]. split; [done|].
  intros fuel.
  destruct (refresh_loop_turns fuel t h0 Hon w0 Hlive_t)
    as (w2 & turns & Hloop & _ & Htr2 & Hlen & Hturns).
  by exists w2, turns.
Qed.

(** ** The statements at work on the small installation *)

Lemma update_sensor_reading_publishes_by_rename_witness :
  let run := _update_sensor_reading temp1 demo_host demo_live in
  run = (Ok tt, host_after run, world_after run)
  ∧ files (world_after run) !! current_file "/dev/shm/sensor_host_tq3x9k2a" temp1
    = Some "{}".
Proof.
  cbv zeta.
  assert (_update_sensor_reading temp1 demo_host demo_live
          = (Ok tt,
             host_after (_update_sensor_reading temp1 demo_host demo_live),
             world_after (_update_sensor_reading temp1 demo_host demo_live)))
    as Hrun by (vm_compute; reflexivity).
  split; [exact Hrun|].
  destruct (update_sensor_reading_publishes_by_rename _ _ _ _ _ _ Hrun)
    as (evs & _ & _ & Hok).
  destruct (Hok eq_refl) as (root & text & Hroot & Hget & _ & Hfiles).
  assert (root = "/dev/shm/sensor_host_tq3x9k2a") as ->
    by (vm_compute in Hroot; congruence).
  assert (text = "{}") as -> by (vm_compute in Hget; congruence).
  rewrite Hfiles. apply lookup_insert_eq.
Defined.

Lemma failed_update_keeps_current_witness :
  let run := _update_sensor_reading broken demo_host demo_published in
  run = (Raise (TypeError "Object is not JSON serializable"),
         host_after run, world_after run)
  ∧ files demo_published !! current_file "/dev/shm/sensor_host_tq3x9k2a" broken
    = Some "{}"
  ∧ files (world_after run) !! current_file "/dev/shm/sensor_host_tq3x9k2a" broken
    = Some "{}".
Proof.
  cbv zeta.
  assert (_update_sensor_reading broken demo_host demo_published
          = (Raise (TypeError "Object is not JSON serializable"),
             host_after (_update_sensor_reading broken demo_host demo_published),
             world_after (_update_sensor_reading broken demo_host demo_published)))
    as Hrun by (vm_compute; reflexivity).
  split; [exact Hrun|].
  assert (files demo_published !! current_file "/dev/shm/sensor_host_tq3x9k2a" broken
          = Some "{}") as Hold by (vm_compute; reflexivity).
  split; [exact Hold|].
  destruct (failed_update_keeps_current _ _ _ _ _ _ Hrun)
    as (_ & _ & Hcur & _).
  rewrite (Hcur "/dev/shm/sensor_host_tq3x9k2a"); [exact Hold|].
  vm_compute. reflexivity.
Defined.


Lemma failed_reconfigure_leaves_nothing_live_witness :
  let run :=
    reconfigure demo_base (demo_config 9000%Q) demo_deps __init__ demo_world in
  running (host_after run) = false
  ∧ run = (Raise (OSError "Address already in use"), host_after run, world_after run)
  ∧ nothing_live (host_after run) (world_after run)
  ∧ tasks (world_after run) = ∅
  ∧ temp_dir (host_after run) = Some "/dev/shm/sensor_host_tq3x9k2a"
  ∧ "/dev/shm/sensor_host_tq3x9k2a" ∈ dirs (world_after run)
  ∧ __del__ (host_after run) (world_after run)
    = (Ok tt, host_after run, world_after run).
Proof.
  cbv zeta.
  assert (running (host_after
            (reconfigure demo_base (demo_config 9000%Q) demo_deps __init__ demo_world))
          = false) as Hoff by (vm_compute; reflexivity).
  assert (reconfigure demo_base (demo_config 9000%Q) demo_deps __init__ demo_world
          = (Raise (OSError "Address already in use"),
             host_after (reconfigure demo_base (demo_config 9000%Q) demo_deps
                           __init__ demo_world),
             world_after (reconfigure demo_base (demo_config 9000%Q) demo_deps
                            __init__ demo_world)))
    as Hrun by (vm_compute; reflexivity).
  split; [exact Hoff|]. split; [exact Hrun|].
  destruct (failed_reconfigure_leaves_nothing_live _ _ _ _ _ _ _ _ Hrun)
    as (_ & Hfail).
  destruct (Hfail Hoff) as (_ & Hlive & _ & _ & _ & Hempty & Hrec & _ & Hdel & _).
  split; [exact Hlive|].
  split.
  { apply Hempty. repeat split.
    - intros t Ht. vm_compute in Ht. discriminate Ht.
    - intros s [x Hx]. vm_compute in Hx. discriminate Hx.
    - intros t [x Hx]. vm_compute in Hx. discriminate Hx. }
  destruct (Hrec "/dev/shm/sensor_host_tq3x9k2a") as (Hroot & _ & Hin).
  { vm_compute. apply list_elem_of_here. }
  split; [exact Hroot|]. split; [exact Hin|exact Hdel].
Defined.


Lemma reconfigure_twice_one_generation_witness :
  let run2 :=
    reconfigure demo_base (demo_config 8091%Q) demo_deps demo_host demo_live in
  reconfigure demo_base (demo_config 8090%Q) demo_deps __init__ demo_world
  = (demo_base, demo_host, demo_live)
  ∧ running (host_after run2) = true
  ∧ live_generation (host_after run2) (world_after run2).
Proof.
  cbv zeta.
  assert (reconfigure demo_base (demo_config 8090%Q) demo_deps __init__ demo_world
          = (demo_base, demo_host, demo_live)) as Hrun1 by (vm_compute; reflexivity).
  assert (running (host_after
            (reconfigure demo_base (demo_config 8091%Q) demo_deps demo_host demo_live))
          = true) as Hon2 by (vm_compute; reflexivity).
  split; [exact Hrun1|]. split; [exact Hon2|].
  assert (at_most_one __init__ demo_world) as Hone.
  { repeat split.
    - intros t Ht. vm_compute in Ht. discriminate Ht.
    - intros s [x Hx]. vm_compute in Hx. discriminate Hx.
    - intros t [x Hx]. vm_compute in Hx. discriminate Hx. }
  destruct (reconfigure_twice_one_generation _ _ _ _ _ _ _ _ _ _ _ _ _ _
              Hone Hrun1 (run_parts _) Hon2)
    as (hm & wm & down & up & _ & _ & _ & _ & _ & _ & _ & _ & _ & _ & Hlive & _).
  exact Hlive.
Defined.

Lemma refresh_now_command_witness :
  ∃ w',
    do_command [("refresh_now", VNull)] demo_host demo_live
    = (Ok [("message", VString "Sensor readings refreshed")], demo_host, w')
    ∧ fetched (drop (length (trace demo_live)) (trace w')) = ["temp2"; "temp1"].
Proof.
  destruct (refresh_now_command [("refresh_now", VNull)] demo_host demo_live)
    as (_ & Hlive).
  { apply (bool_decide_unpack _). vm_compute. exact I. }
  { apply (bool_decide_unpack _). vm_compute. exact I. }
  destruct Hlive as (w' & evs & _ & Hcmd & Htr & Hf); [vm_compute; reflexivity|].
  exists w'. split; [exact Hcmd|].
  rewrite Htr, drop_app_length, Hf. vm_compute. reflexivity.
Defined.

Lemma no_snapshot_before_first_interval_witness :
  reconfigure demo_base (demo_config 8090%Q) demo_deps __init__ demo_world
  = (demo_base, demo_host, demo_live)
  ∧ running demo_host = true
  ∧ files demo_live !! current_file "/dev/shm/sensor_host_tq3x9k2a" temp1 = None
  ∧ refresh_interval demo_host = 5%Q
  ∧ ∃ w2 pass,
      _refresh_readings_loop 1 2 demo_host demo_live = (Ok tt, demo_host, w2)
      ∧ trace w2 = trace demo_live ++ EvSleep 5%Q :: pass
      ∧ fetched pass = ["temp2"; "temp1"].
Proof.
  assert (reconfigure demo_base (demo_config 8090%Q) demo_deps __init__ demo_world
          = (demo_base, demo_host, demo_live)) as Hrun by (vm_compute; reflexivity).
  assert (running demo_host = true) as Hon by (vm_compute; reflexivity).
  split; [exact Hrun|]. split; [exact Hon|].
  assert (sensors demo_host = [temp2; temp1]) as Hss by (vm_compute; reflexivity).
  destruct (no_snapshot_before_first_interval _ _ _ _ _ _ _ _ Hrun Hon)
    as ((root & Hroot & Hnone) & _ & Hi & t & Ht & _ & Hloop).
  { intros sensor Hin. rewrite Hss in Hin.
    apply elem_of_cons in Hin as [->|Hin]; [reflexivity|].
    apply elem_of_cons in Hin as [->|Hin]; [reflexivity|].
    apply elem_of_nil in Hin. destruct Hin. }
  assert (root = "/dev/shm/sensor_host_tq3x9k2a") as ->
    by (vm_compute in Hroot; congruence).
  assert (t = 2%nat) as -> by (vm_compute in Ht; congruence).
  assert (refresh_interval demo_host = 5%Q) as Hfive
    by (rewrite Hi; vm_compute; reflexivity).
  split; [apply Hnone; rewrite Hss; apply elem_of_cons; right;
          apply elem_of_cons; by left|].
  split; [exact Hfive|].
  destruct (Hloop 1%nat) as (w2 & turns & Hrun2 & Htr & Hlen & Hturns).
  destruct turns as [|turn [|? ?]]; [discriminate Hlen| |discriminate Hlen].
  apply Forall_cons in Hturns as [(pass & Hturn & _ & Hf) _].
  exists w2, pass. split; [exact Hrun2|].
  split.
  - rewrite Htr, Hturn, Hfive. cbn. by rewrite app_nil_r.
  - rewrite Hf, Hss. reflexivity.
Defined.

(** * Further properties *)

(** ** Validation and what it lets through *)

(** [validate_config] accepts exactly the configurations that carry a
    non-empty sensor list and a port above 0 and at most 65535, and then
    returns the configured names, in order, as the required dependencies. *)
Theorem validate_config_accepts_iff config required_deps optional_deps :
  validate_config config = Ok (required_deps, optional_deps)
  ↔ has_field config "sensors" = true
    ∧ list_value (field config "sensors") ≠ []
    ∧ has_field config "port" = true
    ∧ (0 < number_value (field config "port"))%Q
    ∧ (number_value (field config "port") <= 65535)%Q
    ∧ required_deps = map string_value (list_value (field config "sensors"))
    ∧ optional_deps = [].
Proof.
  unfold validate_config, Qlt_bool.
  destruct (has_field config "sensors"); cbn; [|naive_solver].
  destruct (list_value (field config "sensors")) as [|v names] eqn:Hn; cbn;
    [naive_solver|].
  destruct (has_field config "port"); cbn; [|naive_solver].
  destruct (Qle_bool (number_value (field config "port")) 0) eqn:H0; cbn.
  { apply Qle_bool_iff in H0. split; [done|].
    intros (_ & _ & _ & Hlt & _). by apply Qlt_not_le in Hlt. }
  assert (¬ (number_value (field config "port") <= 0)%Q) as Hpos.
  { intros Hle%Qle_bool_iff. congruence. }
  apply Qnot_le_lt in Hpos.
  destruct (Qle_bool (number_value (field config "port")) 65535) eqn:H1; cbn.
  - apply Qle_bool_iff in H1. split.
    + intros [= <- <-]. by repeat split.
    + by intros (_ & _ & _ & _ & _ & -> & ->).
  - split; [done|]. intros (_ & _ & _ & _ & Hle%Qle_bool_iff & _). congruence.
Qed.

Lemma validate_config_accepts_iff_witness :
  validate_config (demo_config 8090%Q) = Ok (["temp2"; "temp1"], [])
  ∧ (0 < number_value (field (demo_config 8090%Q) "port"))%Q.
Proof.
  assert (validate_config (demo_config 8090%Q) = Ok (["temp2"; "temp1"], []))
    as Hok by (vm_compute; reflexivity).
  split; [exact Hok|].
  apply (validate_config_accepts_iff _ _ _) in Hok as (_ & _ & _ & Hpos & _).
  exact Hpos.
Defined.

(** A validated port, truncated as [reconfigure] truncates it, is a port
    number the socket layer accepts (between 0 and 65535); it is 0, the
    "any free port" request, exactly when the configured value is below 1. *)
Theorem validated_port_in_range config required_deps optional_deps :
  validate_config config = Ok (required_deps, optional_deps) →
  0 ≤ configured_port config ≤ 65535
  ∧ (configured_port config = 0 ↔ (number_value (field config "port") < 1)%Q).
Proof.
  intros Hok.
  assert ((0 < number_value (field config "port"))%Q
          ∧ (number_value (field config "port") <= 65535)%Q) as [Hpos Hle].
  { revert Hok. unfold validate_config, Qlt_bool.
    destruct (has_field config "sensors"); cbn; [|done].
    destruct (length _ =? 0)%nat; [done|].
    destruct (has_field config "port"); cbn; [|done].
    destruct (Qle_bool (number_value (field config "port")) 0) eqn:H0; cbn; [done|].
    destruct (Qle_bool (number_value (field config "port")) 65535) eqn:H1; cbn; [|done].
    intros _. split; [|by apply Qle_bool_iff].
    apply Qnot_le_lt. intros Hle%Qle_bool_iff. congruence. }
  unfold configured_port, int.
  destruct (number_value (field config "port")) as [n d].
  unfold Qlt, Qle in *. cbn in *.
  assert (0 < n) as Hn by lia.
  rewrite Z.quot_div_nonneg by lia.
  split; [split|].
  - apply Z.div_pos; lia.
  - apply Z.div_le_upper_bound; lia.
  - rewrite Z.div_small_iff by lia. lia.
Qed.

Lemma validated_port_in_range_witness :
  validate_config (demo_config (1 # 2)%Q) = Ok (["temp2"; "temp1"], [])
  ∧ configured_port (demo_config (1 # 2)%Q) = 0.
Proof.
  assert (validate_config (demo_config (1 # 2)%Q) = Ok (["temp2"; "temp1"], []))
    as Hok by (vm_compute; reflexivity).
  split; [exact Hok|].
  apply (validated_port_in_range _ _ _ Hok). vm_compute. reflexivity.
Defined.

(** ** Configuration values as [reconfigure] applies them *)

Lemma configured_interval_positive config : (0 < configured_interval config)%Q.
Proof.
  unfold configured_interval.
  destruct (has_field config "refresh"); [|done]. cbv zeta.
  destruct (Qle_bool (number_value (field config "refresh")) 0) eqn:H0; [done|].
  apply Qnot_le_lt. intros Hle%Qle_bool_iff. congruence.
Qed.

(** Whatever [reconfigure] is given and however it ends, the interval it
    leaves in the instance is positive: the configured one when that is
    present and positive, 5 seconds otherwise. *)
Theorem reconfigure_interval_positive base config deps h w r h' w' :
  reconfigure base config deps h w = (r, h', w') →
  (0 < refresh_interval h')%Q
  ∧ (has_field config "refresh" = true →
     (0 < number_value (field config "refresh"))%Q →
     refresh_interval h' = number_value (field config "refresh"))
  ∧ (has_field config "refresh" = false
     ∨ (number_value (field config "refresh") <= 0)%Q →
     refresh_interval h' = 5%Q).
Proof.
  intros Hrun.
  destruct (stop_server_runs h w) as (hm & wm & down & Hstop & Hlive & _).
  destruct (reconfigure_runs base config deps h w hm wm Hstop Hlive)
    as (r0 & h0 & w0 & up & Hrun' & _ & Hi & _).
  rewrite Hrun in Hrun'. simplify_eq. rewrite Hi.
  split; [apply configured_interval_positive|]. unfold configured_interval.
  split.
  - intros -> Hpos. cbv zeta.
    destruct (Qle_bool (number_value (field config "refresh")) 0) eqn:H0; [|done].
    apply Qle_bool_iff in H0. by apply Qlt_not_le in Hpos.
  - intros [->|Hle]; [done|].
    destruct (has_field config "refresh"); [|done]. cbv zeta.
    apply Qle_bool_iff in Hle. by rewrite Hle.
Qed.

Lemma reconfigure_interval_positive_witness :
  reconfigure demo_base (demo_config 8090%Q) demo_deps __init__ demo_world
  = (demo_base, demo_host, demo_live)
  ∧ refresh_interval demo_host = 5%Q.
Proof.
  assert (reconfigure demo_base (demo_config 8090%Q) demo_deps __init__ demo_world
          = (demo_base, demo_host, demo_live)) as Hrun by (vm_compute; reflexivity).
  split; [exact Hrun|].
  apply (reconfigure_interval_positive _ _ _ _ _ _ _ _ Hrun).
  left. vm_compute. reflexivity.
Defined.

Lemma configured_sensors_from_deps (deps : gmap string Sensor) names sensor :
  sensor ∈ omap (λ v, deps !! string_value v) names →
  ∃ n, n ∈ map string_value names ∧ deps !! n = Some sensor.
Proof.
  induction names as [|v names IH]; cbn; [by intros ?%elem_of_nil|].
  destruct (deps !! string_value v) as [s|] eqn:Hv.
  - intros [->|Hin]%elem_of_cons.
    + exists (string_value v). split; [apply elem_of_cons; by left|done].
    + destruct (IH Hin) as (n & Hn & Hd). exists n.
      split; [apply elem_of_cons; by right|done].
  - intros Hin. destruct (IH Hin) as (n & Hn & Hd). exists n.
    split; [apply elem_of_cons; by right|done].
Qed.

Lemma configured_sensors_complete (deps : gmap string Sensor) names :
  (∀ n, n ∈ map string_value names → is_Some (deps !! n)) →
  Forall2 (λ n sensor, deps !! n = Some sensor)
    (map string_value names) (omap (λ v, deps !! string_value v) names).
Proof.
  induction names as [|v names IH]; intros Hall; cbn; [constructor|].
  destruct (Hall (string_value v)) as [s Hs]; [apply elem_of_cons; by left|].
  rewrite Hs. constructor; [done|].
  apply IH. intros n Hn. apply Hall. apply elem_of_cons. by right.
Qed.

(** The sensors [reconfigure] keeps are dependencies found under configured
    names; when every dependency [validate_config] asked for is supplied,
    they match the configured names one for one, in order: none is dropped. *)
Theorem reconfigure_resolves_dependencies
    base config deps h w r h' w' required_deps optional_deps :
  validate_config config = Ok (required_deps, optional_deps) →
  reconfigure base config deps h w = (r, h', w') →
  (∀ sensor, sensor ∈ sensors h' →
     ∃ n, n ∈ required_deps ∧ deps !! n = Some sensor)
  ∧ ((∀ n, n ∈ required_deps → is_Some (deps !! n)) →
     Forall2 (λ n sensor, deps !! n = Some sensor) required_deps (sensors h')).
Proof.
  intros Hok Hrun.
  assert (required_deps = map string_value (list_value (field config "sensors")))
    as ->.
  { revert Hok. unfold validate_config.
    repeat (case_match; try done). by intros [= <- _]. }
  destruct (stop_server_runs h w) as (hm & wm & down & Hstop & Hlive & _).
  destruct (reconfigure_runs base config deps h w hm wm Hstop Hlive)
    as (r0 & h0 & w0 & up & Hrun' & _ & _ & Hss & _).
  rewrite Hrun in Hrun'. simplify_eq. rewrite Hss. unfold configured_sensors.
  split.
  - intros sensor. apply configured_sensors_from_deps.
  - apply configured_sensors_complete.
Qed.

Lemma reconfigure_resolves_dependencies_witness :
  validate_config (demo_config 8090%Q) = Ok (["temp2"; "temp1"], [])
  ∧ reconfigure demo_base (demo_config 8090%Q) demo_deps __init__ demo_world
    = (demo_base, demo_host, demo_live)
  ∧ Forall2 (λ n sensor, demo_deps !! n = Some sensor)
      ["temp2"; "temp1"] (sensors demo_host).
Proof.
  assert (validate_config (demo_config 8090%Q) = Ok (["temp2"; "temp1"], []))
    as Hok by (vm_compute; reflexivity).
  assert (reconfigure demo_base (demo_config 8090%Q) demo_deps __init__ demo_world
          = (demo_base, demo_host, demo_live)) as Hrun by (vm_compute; reflexivity).
  split; [exact Hok|]. split; [exact Hrun|].
  apply (reconfigure_resolves_dependencies _ _ _ _ _ _ _ _ _ _ Hok Hrun).
  intros n Hn.
  apply elem_of_cons in Hn as [->|Hn]; [vm_compute; eexists; reflexivity|].
  apply elem_of_cons in Hn as [->|Hn]; [vm_compute; eexists; reflexivity|].
  apply elem_of_nil in Hn. destruct Hn.
Defined.

(** ** Commands and the refresh loop *)

(** [do_command] never raises and never changes the instance, its sockets,
    threads, tasks or directories, whatever the mapping holds (the empty
    mapping included).  Only a [refresh_now] on a running instance touches
    the world at all; a mapping with neither known key is answered with an
    error naming its keys. *)
Theorem do_command_contained command h w :
  ∃ answer w',
    do_command command h w = (Ok answer, h, w')
    ∧ same_resources w w'
    ∧ ("status" ∈ command.*1 ∨ "refresh_now" ∉ command.*1 ∨ running h = false →
       w' = w)
    ∧ ("status" ∉ command.*1 → "refresh_now" ∉ command.*1 →
       answer = [("error",
                  VString ("Unknown command: " +:+ repr_keys command.*1))]).
Proof.
  unfold do_command.
  destruct (decide ("status" ∈ command.*1)) as [Hs|Hs].
  { rewrite (bool_decide_eq_true_2 _ Hs). unfold bind, self, ret.
    eexists _, w. by repeat split. }
  rewrite (bool_decide_eq_false_2 _ Hs).
  destruct (decide ("refresh_now" ∈ command.*1)) as [Hr|Hr].
  2:{ rewrite (bool_decide_eq_false_2 _ Hr). unfold ret.
      eexists _, w. by repeat split. }
  rewrite (bool_decide_eq_true_2 _ Hr).
  unfold bind at 1. unfold self at 1.
  destruct (running h) eqn:Hrun.
  2:{ unfold ret. eexists _, w. by repeat split. }
  destruct (update_all_runs h w) as (w' & evs & l & Hall & Hres & _).
  unfold bind, ret. rewrite Hall. eexists _, w'.
  split; [done|]. split; [done|]. split; [|done].
  intros [?|[?|?]]; done.
Qed.

Lemma do_command_contained_witness :
  ∃ w',
    do_command [] demo_host demo_live
    = (Ok [("error", VString "Unknown command: []")], demo_host, w')
    ∧ w' = demo_live.
Proof.
  destruct (do_command_contained [] demo_host demo_live)
    as (answer & w' & Hrun & _ & Hsame & Hunknown).
  exists w'. rewrite Hunknown in Hrun.
  - split; [exact Hrun|]. apply Hsame. right. left.
    intros Hin. apply elem_of_nil in Hin. destruct Hin.
  - intros Hin. apply elem_of_nil in Hin. destruct Hin.
  - intros Hin. apply elem_of_nil in Hin. destruct Hin.
Defined.

(** A poll pass on an instance without a root directory (after a teardown)
    still fetches every sensor and raises nothing, but changes no file and
    logs a failure for every sensor. *)
Theorem poll_pass_without_root h w :
  temp_dir h = None →
  ∃ w' evs l,
    _update_all_sensor_readings h w = (Ok tt, h, w')
    ∧ files w' = files w
    ∧ dirs w' = dirs w
    ∧ trace w' = trace w ++ evs
    ∧ fetched evs = map name (sensors h)
    ∧ log w' = log w ++ l
    ∧ ∀ s, s ∈ sensors h →
        ∃ e, (ERROR, "Failed to update readings for sensor "
                     +:+ name s +:+ ": " +:+ str_exn e) ∈ l.
Proof.
  intros Hnone.
  destruct (update_all_runs h w)
    as (w' & evs & l & Hall & (Hd & _) & Htr & Hf & Hl & Hpub).
  destruct (poll_pass_quiet h (sensors h) w) as (w2 & evs2 & Hpass & _ & _ & Hfiles).
  assert (w2 = w') as ->.
  { revert Hall. unfold _update_all_sensor_readings, bind, self.
    rewrite Hpass. by intros [= ->]. }
  exists w', evs, l. split; [done|]. split; [by apply Hfiles|].
  do 4 (split; [done|]).
  intros s Hs. destruct (Hpub s Hs) as [(root & Hroot & _)|He]; [congruence|done].
Qed.

Lemma poll_pass_without_root_witness :
  let stopped := _stop_server demo_host demo_published in
  temp_dir (host_after stopped) = None
  ∧ ∃ w',
      _update_all_sensor_readings (host_after stopped) (world_after stopped)
      = (Ok tt, host_after stopped, w')
      ∧ files w' = files (world_after stopped).
Proof.
  cbv zeta.
  assert (temp_dir (host_after (_stop_server demo_host demo_published)) = None)
    as Hnone by (vm_compute; reflexivity).
  split; [exact Hnone|].
  destruct (poll_pass_without_root _ (world_after (_stop_server demo_host demo_published)) Hnone)
    as (w' & evs & l & Hrun & Hfiles & _).
  exists w'. split; [exact Hrun|exact Hfiles].
Defined.

(** While the instance is running and its task is live, every turn of the
    refresh loop first sleeps for the interval and then fetches every sensor
    once, in order, without sleeping again: the events of the loop are the
    turns one after the other, one turn per iteration.  The loop itself
    never raises and never changes the instance. *)
Theorem refresh_loop_polls_every_turn fuel me h w :
  running h = true →
  me ∈ tasks w →
  ∃ w' turns,
    _refresh_readings_loop fuel me h w = (Ok tt, h, w')
    ∧ same_resources w w'
    ∧ trace w' = trace w ++ concat turns
    ∧ length turns = fuel
    ∧ Forall (loop_turn h) turns
    ∧ slept (concat turns) = replicate fuel (refresh_interval h)
    ∧ fetched (concat turns) = concat (replicate fuel (map name (sensors h))).
Proof.
  intros Hrun Hme.
  destruct (refresh_loop_turns fuel me h Hrun w Hme)
    as (w' & turns & Hloop & Hres & Htr & Hlen & Hturns).
  destruct (refresh_loop_runs fuel me h w)
    as (w2 & evs & Hloop2 & _ & Htr2 & _ & Hlive & _).
  rewrite Hloop in Hloop2. injection Hloop2 as <-.
  rewrite Htr in Htr2. apply app_inv_head in Htr2 as <-.
  destruct (Hlive Hrun Hme) as [Hs Hf]. by exists w', turns.
Qed.

(** A loop whose task has been cancelled, or whose instance is not running,
    never polls: it fetches nothing and changes no file, and it stops at its
    first [await] (at most one sleep) even if the instance is running again
    for a newer Generation. *)
Theorem cancelled_loop_never_polls fuel me h w :
  me ∉ tasks w ∨ running h = false →
  ∃ w' evs,
    _refresh_readings_loop fuel me h w = (Ok tt, h, w')
    ∧ trace w' = trace w ++ evs
    ∧ fetched evs = []
    ∧ files w' = files w
    ∧ Forall (λ e, ∃ d, e = EvSleep d) evs
    ∧ (length evs ≤ 1)%nat.
Proof.
  intros Hstop.
  destruct (refresh_loop_runs fuel me h w)
    as (w' & evs & Hloop & Hres & Htr & Hoff & _ & Hdead).
  exists w', evs. split; [done|]. split; [done|].
  destruct Hstop as [Hme|Hrun].
  - by destruct (Hdead Hme) as (? & ? & ? & ?).
  - specialize (Hoff Hrun). subst w'.
    assert (evs = []) as ->.
    { rewrite <- (app_nil_r (trace w)) in Htr at 1. by apply app_inv_head in Htr. }
    repeat split; [constructor|cbn; lia].
Qed.

Lemma refresh_loop_polls_every_turn_witness :
  running demo_host = true
  ∧ 2%nat ∈ tasks demo_live
  ∧ ∃ w' evs,
      _refresh_readings_loop 2 2 demo_host demo_live = (Ok tt, demo_host, w')
      ∧ trace w' = trace demo_live ++ evs
      ∧ fetched evs = ["temp2"; "temp1"; "temp2"; "temp1"].
Proof.
  assert (running demo_host = true) as Hrun by (vm_compute; reflexivity).
  assert (2%nat ∈ tasks demo_live) as Hme
    by (apply (bool_decide_unpack _); vm_compute; exact I).
  split; [exact Hrun|]. split; [exact Hme|].
  destruct (refresh_loop_polls_every_turn 2 2 demo_host demo_live Hrun Hme)
    as (w' & turns & Hloop & _ & Htr & _ & _ & _ & Hf).
  exists w', (concat turns). split; [exact Hloop|]. split; [exact Htr|].
  rewrite Hf. vm_compute. reflexivity.
Defined.

Lemma cancelled_loop_never_polls_witness :
  (7%nat ∉ tasks demo_live)
  ∧ ∃ w' evs,
      _refresh_readings_loop 3 7 demo_host demo_live = (Ok tt, demo_host, w')
      ∧ trace w' = trace demo_live ++ evs
      ∧ fetched evs = [].
Proof.
  assert (7%nat ∉ tasks demo_live) as Hme
    by (apply (bool_decide_unpack _); vm_compute; exact I).
  split; [exact Hme|].
  destruct (cancelled_loop_never_polls 3 7 demo_host demo_live (or_introl Hme))
    as (w' & evs & Hloop & Htr & Hf & _).
  exists w', evs. split; [exact Hloop|]. split; [exact Htr|exact Hf].
Defined.

(** ** Life cycle *)

(** Destroying an instance whose last [reconfigure] started a Generation
    ([running] is true, whether or not the call then returned) releases
    everything the Generation held: no task, socket or thread is left and
    nothing remains of its root directory, snapshots included. *)
Theorem del_after_reconfigure_releases base config deps h w r h1 w1 :
  at_most_one h w →
  reconfigure base config deps h w = (r, h1, w1) →
  running h1 = true →
  ∃ h2 w2 root,
    __del__ h1 w1 = (Ok tt, h2, w2)
    ∧ temp_dir h1 = Some root
    ∧ fresh_process w2
    ∧ nothing_live h2 w2
    ∧ (∀ p, within root p → files w2 !! p = None ∧ p ∉ dirs w2).
Proof.
  intros Hone Hrun Hon.
  destruct (reconfigure_one_generation _ _ _ _ _ _ _ _ Hone Hrun)
    as (Hone1 & Hgen & _).
  destruct (Hgen Hon) as (_ & Hrunning & t & s & th & root & _ & _ & _ & _ & _
                          & _ & Hroot & Hne & _).
  destruct (stop_server_runs h1 w1)
    as (h2 & w2 & down & Hstop & Hlive & _ & _ & _ & _ & _ & _ & _ & _ & _
        & _ & _ & _ & _ & Hempty & Hgone & _).
  exists h2, w2, root.
  split; [unfold __del__, bind, self; by rewrite Hrunning|].
  split; [done|]. split; [by apply Hempty|]. split; [done|].
  intros p Hp. specialize (Hgone root Hroot Hne).
  split; [by eapply not_exists_within|].
  intros Hin. apply bool_decide_eq_false in Hgone. apply Hgone.
  exists p. split; [|done]. unfold paths. set_solver.
Qed.

Lemma del_after_reconfigure_releases_witness :
  reconfigure demo_base (demo_config 8090%Q) demo_deps __init__ demo_world
  = (demo_base, demo_host, demo_live)
  ∧ running demo_host = true
  ∧ fresh_process (world_after (__del__ demo_host demo_live))
  ∧ files (world_after (__del__ demo_host demo_live)) = ∅.
Proof.
  assert (reconfigure demo_base (demo_config 8090%Q) demo_deps __init__ demo_world
          = (demo_base, demo_host, demo_live)) as Hrun by (vm_compute; reflexivity).
  assert (running demo_host = true) as Hon by (vm_compute; reflexivity).
  split; [exact Hrun|]. split; [exact Hon|].
  assert (at_most_one __init__ demo_world) as Hone.
  { apply at_most_one_fresh. repeat split; vm_compute; reflexivity. }
  destruct (del_after_reconfigure_releases _ _ _ _ _ _ _ _ Hone Hrun Hon)
    as (h2 & w2 & root & Hdel & _ & Hfresh & _).
  rewrite Hdel. split; [exact Hfresh|].
  assert (w2 = world_after (__del__ demo_host demo_live)) as ->
    by (by rewrite Hdel).
  vm_compute. reflexivity.
Defined.

(** Destroying an instance whose last [reconfigure] failed during start-up
    does nothing: that call raised and left [running] false, so [__del__]
    skips the teardown, and a root directory the attempt created stays on
    disk, still named by the instance. *)
Theorem del_after_failed_reconfigure_is_noop base config deps h w r h1 w1 :
  reconfigure base config deps h w = (r, h1, w1) →
  running h1 = false →
  is_raise r = true
  ∧ __del__ h1 w1 = (Ok tt, h1, w1)
  ∧ ∀ root, EvMkdtemp root ∈ drop (length (trace w)) (trace w1) →
      temp_dir (host_after (__del__ h1 w1)) = Some root
      ∧ root ∈ dirs (world_after (__del__ h1 w1)).
Proof.
  intros Hrun Hoff.
  destruct (stop_server_runs h w) as (hm & wm & down & Hstop & Hlive & _).
  destruct (reconfigure_runs base config deps h w hm wm Hstop Hlive)
    as (r0 & h0 & w0 & up & Hrun' & _ & _ & _ & _ & _ & _ & _ & _ & Hres & _).
  rewrite Hrun in Hrun'. simplify_eq. rewrite Hoff in Hres.
  destruct Hres as ([e ->] & _).
  assert (__del__ h0 w0 = (Ok tt, h0, w0)) as Hdel
    by (unfold __del__, bind, self, ret; by rewrite Hoff).
  split; [done|]. split; [done|].
  intros root Hin. rewrite Hdel.
  destruct (reconfigure_created_root _ _ _ _ _ _ _ _ Hrun) as (evs & Htr & Hrec).
  rewrite Htr, drop_app_length in Hin.
  by destruct (Hrec root Hin) as (? & _ & ?).
Qed.

Lemma del_after_failed_reconfigure_is_noop_witness :
  let run :=
    reconfigure demo_base (demo_config 9000%Q) demo_deps __init__ demo_world in
  running (host_after run) = false
  ∧ "/dev/shm/sensor_host_tq3x9k2a"
    ∈ dirs (world_after (__del__ (host_after run) (world_after run))).
Proof.
  cbv zeta.
  assert (running (host_after
            (reconfigure demo_base (demo_config 9000%Q) demo_deps __init__ demo_world))
          = false) as Hoff by (vm_compute; reflexivity).
  split; [exact Hoff|].
  destruct (del_after_failed_reconfigure_is_noop demo_base (demo_config 9000%Q)
              demo_deps __init__ demo_world _ _ _ (run_parts _) Hoff)
    as (_ & _ & Hrec).
  apply (Hrec "/dev/shm/sensor_host_tq3x9k2a").
  vm_compute. apply list_elem_of_here.
Defined.

(** ** The invariant over any sequence of calls *)

Lemma at_most_one_same h w w' :
  same_resources w w' → at_most_one h w → at_most_one h w'.
Proof. intros (_ & Hs & Ht & Hk). unfold at_most_one. by rewrite Hs, Ht, Hk. Qed.

Lemma live_generation_same h w w' :
  same_resources w w' → live_generation h w → live_generation h w'.
Proof.
  intros (Hd & Hs & Ht & Hk). unfold live_generation. by rewrite Hd, Hs, Ht, Hk.
Qed.

Lemma fresh_process_same w w' :
  same_resources w w' → fresh_process w → fresh_process w'.
Proof. intros (_ & Hs & Ht & Hk). unfold fresh_process. by rewrite Hs, Ht, Hk. Qed.

Lemma generation_invariant_same h w w' :
  same_resources w w' →
  generation_invariant (h, w) → generation_invariant (h, w').
Proof.
  intros Hres (Hone & Hlive & Hoff). unfold generation_invariant. cbn in *.
  split; [by eapply at_most_one_same|].
  split; intros Hr.
  - eapply live_generation_same; [done|]. by apply Hlive.
  - eapply fresh_process_same; [done|]. by apply Hoff.
Qed.

Lemma do_command_runs command h w :
  ∃ answer w', do_command command h w = (Ok answer, h, w') ∧ same_resources w w'.
Proof.
  unfold do_command.
  destruct (bool_decide ("status" ∈ command.*1)).
  { unfold bind, self, ret. by eexists _, w. }
  destruct (bool_decide ("refresh_now" ∈ command.*1)); [|by eexists _, w].
  unfold bind at 1. unfold self at 1.
  destruct (running h); [|by eexists _, w].
  destruct (update_all_runs h w) as (w' & evs & l & Hall & Hres & _).
  unfold bind, ret. rewrite Hall. by eexists _, w'.
Qed.

Lemma state_after_invariant base c s :
  generation_invariant s → generation_invariant (state_after base c s).
Proof.
  destruct s as [h w]. intros Hinv.
  pose proof Hinv as (Hone & Hlive & Hoff). cbn in Hone, Hlive, Hoff.
  destruct c as [config deps|command|fuel me|]; cbn [state_after fst snd].
  - destruct (reconfigure base config deps h w) as [[r h'] w'] eqn:Hrun.
    destruct (reconfigure_one_generation _ _ _ _ _ _ _ _ Hone Hrun)
      as (Hone' & Hgen & Hfresh).
    unfold host_after, world_after, generation_invariant. cbn.
    split; [done|]. split; [intros Hon; by apply Hgen|done].
  - destruct (do_command_runs command h w) as (answer & w' & Hrun & Hres).
    rewrite Hrun. by apply (generation_invariant_same h w w').
  - destruct (refresh_loop_runs fuel me h w) as (w' & evs & Hrun & Hres & _).
    rewrite Hrun. by apply (generation_invariant_same h w w').
  - unfold __del__, bind, self. destruct (running h) eqn:Hrunning.
    + destruct (stop_server_runs h w)
        as (h2 & w2 & down & Hstop & Hnl & _ & _ & _ & _ & _ & _ & _ & _ & _
            & _ & _ & _ & _ & Hempty & _).
      destruct (Hempty Hone) as (Hk & Hs & Ht).
      rewrite Hstop. unfold host_after, world_after, generation_invariant. cbn.
      destruct Hnl as (Hof & _).
      split; [by apply at_most_one_fresh|]. split; [congruence|done].
    + done.
Qed.

(** However many calls are made on an instance created in a process that
    holds nothing yet, and whichever of them fail, the instance never has
    two Generations: every live task, socket and thread is the one it holds;
    while it is running exactly one Generation is live, and while it is not
    the process holds no task, socket or thread. *)
Theorem history_keeps_one_generation base cs w :
  fresh_process w →
  generation_invariant (history base cs (__init__, w)).
Proof.
  intros Hfresh.
  assert (generation_invariant (__init__, w)) as Hinit.
  { split; [by apply at_most_one_fresh|]. split; [done|done]. }
  revert Hinit. generalize (__init__, w). unfold history.
  induction cs as [|c cs IH]; intros s Hs; cbn; [done|].
  apply IH. by apply state_after_invariant.
Qed.

Lemma history_keeps_one_generation_witness :
  live_generation
    (history demo_base [Reconfigure (demo_config 9000%Q) demo_deps;
              Reconfigure (demo_config 8090%Q) demo_deps;
              DoCommand [("refresh_now", VNull)];
              LoopTurns 2 5] (__init__, demo_world)).1
    (history demo_base [Reconfigure (demo_config 9000%Q) demo_deps;
              Reconfigure (demo_config 8090%Q) demo_deps;
              DoCommand [("refresh_now", VNull)];
              LoopTurns 2 5] (__init__, demo_world)).2.
Proof.
  apply (history_keeps_one_generation demo_base
           [Reconfigure (demo_config 9000%Q) demo_deps;
            Reconfigure (demo_config 8090%Q) demo_deps;
            DoCommand [("refresh_now", VNull)];
            LoopTurns 2 5] demo_world).
  - repeat split; vm_compute; reflexivity.
  - vm_compute. reflexivity.
Defined.

(** ** Start-up on a machine without [/dev/shm] *)

Lemma setup_without_dev_shm h w :
  "/dev/shm" ∉ dirs w →
  ∃ w',
    _setup_temp_directory h w
    = (Raise (OSError "No such file or directory: /dev/shm"), h, w')
    ∧ dirs w' ⊆ dirs w ∧ files w' ⊆ files w
    ∧ same_process w w'
    ∧ ∃ evs, trace w' = trace w ++ evs
             ∧ Forall (λ e, is_creation e = false) evs.
Proof.
  intros Hno. unfold _setup_temp_directory. run. unfold mkdtemp, rmtree, emit, set_fs.
  destruct (truthy (temp_dir h)); cbn.
  - rewrite bool_decide_eq_false_2 by set_solver. cbn.
    eexists. split; [reflexivity|]. cbn.
    split; [set_solver|]. split; [apply map_filter_subseteq|]. split; [done|].
    eexists. split; [reflexivity|]. by repeat constructor.
  - rewrite (bool_decide_eq_false_2 _ Hno). cbn.
    eexists. split; [reflexivity|]. repeat split; try done.
    exists []. by rewrite app_nil_r.
Qed.

(** The root directory is always made under [/dev/shm]: where that directory
    does not exist, every [reconfigure] tears the previous Generation down
    and then raises, creating no directory, socket, thread or task. *)
Theorem reconfigure_needs_dev_shm base config deps h w :
  "/dev/shm" ∉ dirs w →
  ∃ h' w',
    reconfigure base config deps h w
    = (Raise (OSError "No such file or directory: /dev/shm"), h', w')
    ∧ nothing_live h' w'
    ∧ dirs w' ⊆ dirs w ∧ files w' ⊆ files w
    ∧ tasks w' ⊆ tasks w ∧ sockets w' ⊆ sockets w ∧ threads w' ⊆ threads w
    ∧ Forall (λ e, is_creation e = false) (drop (length (trace w)) (trace w')).
Proof.
  intros Hno.
  destruct (stop_server_runs h w)
    as (hm & wm & down & Hstop & (Hoff & Hsrv & Htask & Hthr) & _ & _ & _ & _
        & Hk & Hs & Ht & Hd & Hf & _ & Htr & Hdown & _).
  destruct (reconfigure_steps base config deps h w hm wm Hstop) as [l Hsteps].
  destruct (setup_without_dev_shm
              (set_sensors (configured_sensors config deps)
                 (set_refresh_interval (configured_interval config)
                    (set_port (configured_port config) hm)))
              (with_log l wm))
    as (w' & Hsetup & Hd' & Hf' & (Hs' & Ht' & Hk' & _) & evs & Htr' & Hevs);
    [set_solver|].
  cbn in Hd', Hf', Hs', Ht', Hk', Htr'.
  eexists _, w'. split.
  { rewrite Hsteps. unfold bind at 1. by rewrite Hsetup. }
  split.
  { unfold nothing_live. cbn. rewrite Hk', Ht'. done. }
  split; [set_solver|]. split; [by etrans|].
  rewrite Hk', Hs', Ht'. do 3 (split; [done|]).
  rewrite Htr', Htr, <- app_assoc, drop_app_length.
  apply Forall_app. split; [|done].
  eapply Forall_impl; [exact Hdown|]. apply teardown_not_creation.
Qed.

Lemma reconfigure_needs_dev_shm_witness :
  let w := mkWorld ∅ ∅ ∅ ∅ ∅ (λ _, false) ∅ 0%nat (λ _, "a") 0%nat 0%nat [] [] in
  ("/dev/shm" ∉ dirs w)
  ∧ is_raise (outcome (reconfigure (Ok tt) (demo_config 8090%Q) demo_deps
                         __init__ w)) = true.
Proof.
  cbv zeta.
  assert ("/dev/shm" ∉ dirs (mkWorld ∅ ∅ ∅ ∅ ∅ (λ _, false) ∅ 0%nat (λ _, "a")
                                0%nat 0%nat [] [])) as Hno
    by (apply (bool_decide_unpack _); vm_compute; exact I).
  split; [exact Hno|].
  destruct (reconfigure_needs_dev_shm (Ok tt) (demo_config 8090%Q) demo_deps
              __init__ _ Hno)
    as (h' & w' & Hrun & _).
  rewrite Hrun. reflexivity.
Defined.

(** ** Sensor directories and the first refresh *)

Lemma append_nil_r (a : string) : a +:+ "" = a.
Proof. induction a as [|c a IH]; [done|]. by rewrite append_cons, IH. Qed.

Lemma append_self_inv (a b : string) : a = a +:+ b → b = "".
Proof.
  intros H. rewrite <- (append_nil_r a) in H at 1.
  by apply String.app_inj in H.
Qed.

Lemma contains_slash_app (a b : string) :
  contains_slash (a +:+ b) = contains_slash a || contains_slash b.
Proof.
  induction a as [|c a IH]; [done|].
  rewrite append_cons. cbn. by rewrite IH, orb_assoc.
Qed.

Lemma all_slashes_app (a b : string) :
  all_slashes (a +:+ b) = all_slashes a && all_slashes b.
Proof.
  induction a as [|c a IH]; [done|].
  rewrite append_cons. cbn. by rewrite IH, andb_assoc.
Qed.

Lemma ends_with_slash_app (a b : string) :
  b ≠ "" → ends_with_slash (a +:+ b) = ends_with_slash b.
Proof.
  intros Hb. induction a as [|c a IH]; [done|].
  rewrite append_cons. cbn. rewrite IH.
  destruct (a +:+ b) eqn:E; [|done].
  destruct a; [by destruct b|by rewrite append_cons in E].
Qed.

Lemma no_slash_not_ending (n : string) :
  contains_slash n = false → ends_with_slash n = false.
Proof.
  induction n as [|c n IH]; [done|]. cbn.
  intros [Hc Hn]%orb_false_iff. destruct n; [done|]. by apply IH.
Qed.

Lemma plain_name_relative n : plain_name n → starts_with_slash n = false.
Proof.
  intros (Hne & _ & _ & Hno). destruct n as [|c n]; [done|]. cbn in *.
  by apply orb_false_iff in Hno as [? _].
Qed.

Lemma plain_name_not_all_slashes n : plain_name n → all_slashes n = false.
Proof.
  intros (Hne & _ & _ & Hno). destruct n as [|c n]; [done|]. cbn in *.
  apply orb_false_iff in Hno as [-> _]. done.
Qed.

Lemma upto_last_slash_none b : contains_slash b = false → upto_last_slash b = "".
Proof. destruct b as [|c b]; [done|]. cbn [upto_last_slash]. by intros ->. Qed.

Lemma upto_last_slash_app a b :
  contains_slash b = false → upto_last_slash (a +:+ String "/" b) = a +:+ "/".
Proof.
  intros Hb. induction a as [|c a IH].
  - change ("" +:+ String "/" b) with (String "/" b).
    cbn. by rewrite upto_last_slash_none.
  - rewrite !append_cons.
    change (upto_last_slash (String c (a +:+ String "/" b)))
      with (if contains_slash (String c (a +:+ String "/" b))
            then String c (upto_last_slash (a +:+ String "/" b)) else "").
    rewrite IH.
    assert (contains_slash (String c (a +:+ String "/" b)) = true) as ->; [|done].
    rewrite <- append_cons, contains_slash_app. apply orb_true_iff. by right.
Qed.

Lemma rstrip_slash_app d :
  d ≠ "" → ends_with_slash d = false → rstrip_slash (d +:+ "/") = d.
Proof.
  induction d as [|c d IH]; [done|]. intros _ Hend.
  rewrite append_cons. cbn [rstrip_slash].
  destruct d as [|c' d].
  - cbn in Hend. cbn. by rewrite Hend.
  - rewrite IH; [|done|done].
    cbn. by rewrite andb_false_r.
Qed.

(** The paths of a sensor with a plain name, spelled out. *)
Lemma plain_paths root sensor :
  root ≠ "" →
  plain_name (name sensor) →
  sensor_dir root sensor = as_dir root +:+ name sensor
  ∧ temp_file root sensor = sensor_dir root sensor +:+ "/next.json"
  ∧ current_file root sensor = sensor_dir root sensor +:+ "/current.json"
  ∧ os_path_dirname (temp_file root sensor) = sensor_dir root sensor.
Proof.
  intros Hroot Hplain.
  pose proof (plain_name_relative _ Hplain) as Hrel.
  pose proof (plain_name_not_all_slashes _ Hplain) as Hnas.
  destruct Hplain as (Hne & _ & _ & Hno).
  assert (os_path_join root (name sensor) = as_dir root +:+ name sensor) as Hdir.
  { rewrite os_path_join_relative by done. by rewrite (bool_decide_eq_false_2 _ Hroot). }
  set (d := as_dir root +:+ name sensor) in *.
  assert (d ≠ "") as Hdne by apply append_nonempty_l, as_dir_nonempty.
  assert (ends_with_slash d = false) as Hend.
  { unfold d. rewrite ends_with_slash_app by done. by apply no_slash_not_ending. }
  assert (∀ b, starts_with_slash b = false →
               os_path_join d b = d +:+ String "/" b) as Hfile.
  { intros b Hb. rewrite os_path_join_relative by done.
    rewrite (bool_decide_eq_false_2 _ Hdne). unfold as_dir.
    rewrite Hend. by rewrite append_assoc. }
  unfold sensor_dir, temp_file, current_file. rewrite Hdir.
  split; [done|]. split; [by apply Hfile|]. split; [by apply Hfile|].
  rewrite Hfile by done. unfold os_path_dirname.
  rewrite upto_last_slash_app by done.
  rewrite all_slashes_app. unfold d at 1. rewrite all_slashes_app.
  rewrite Hnas.
  rewrite andb_false_r. cbn [andb].
  by apply rstrip_slash_app.
Qed.

(** Plain names are told apart by the paths built from them. *)
Lemma split_at_slash a a' b b' :
  contains_slash a = false → contains_slash a' = false →
  a +:+ String "/" b = a' +:+ String "/" b' → a = a' ∧ b = b'.
Proof.
  revert a'. induction a as [|c a IH]; intros [|c' a'] Ha Ha' Heq.
  - change ("" +:+ String "/" b) with (String "/" b) in Heq.
    change ("" +:+ String "/" b') with (String "/" b') in Heq.
    by simplify_eq.
  - change ("" +:+ String "/" b) with (String "/" b) in Heq.
    rewrite append_cons in Heq. by simplify_eq.
  - change ("" +:+ String "/" b') with (String "/" b') in Heq.
    rewrite append_cons in Heq. by simplify_eq.
  - rewrite !append_cons in Heq. injection Heq as -> Heq.
    cbn in Ha, Ha'. apply orb_false_iff in Ha as [_ Ha].
    apply orb_false_iff in Ha' as [_ Ha'].
    destruct (IH a' Ha Ha' Heq) as [-> ->]. done.
Qed.

Lemma append_inv_head (a b c : string) : a +:+ b = a +:+ c → b = c.
Proof.
  induction a as [|x a IH]; [done|]. rewrite !append_cons. intros [= H]. auto.
Qed.

Lemma plain_paths_apart root s s' :
  root ≠ "" →
  plain_name (name s) → plain_name (name s') →
  (temp_file root s ≠ current_file root s')
  ∧ (name s ≠ name s' →
     current_file root s ≠ current_file root s'
     ∧ temp_file root s ≠ temp_file root s').
Proof.
  intros Hroot Hs Hs'.
  destruct (plain_paths root s Hroot Hs) as (Hd & Ht & Hc & _).
  destruct (plain_paths root s' Hroot Hs') as (Hd' & Ht' & Hc' & _).
  rewrite Ht, Hc, Ht', Hc', Hd, Hd'.
  destruct Hs as (_ & _ & _ & Hs). destruct Hs' as (_ & _ & _ & Hs').
  rewrite !append_assoc.
  split; [|intros Hne; split].
  all: intros Heq%append_inv_head.
  all: apply split_at_slash in Heq as [? ?]; done.
Qed.

(** The directories the per-sensor loop of [_setup_temp_directory] leaves. *)
Lemma makedirs_loop_dirs ss :
  ∀ h w h' w',
    for_each ss (λ sensor,
      root <- self temp_dir ;;
      let sensor_dir := os_path_join (default "" root) (name sensor) in
      call (makedirs sensor_dir)) h w
    = (Ok tt, h', w') →
    ∀ p, p ∈ dirs w'
         ↔ p ∈ dirs w
           ∨ ∃ s, s ∈ ss ∧ p = os_path_join (default "" (temp_dir h)) (name s).
Proof.
  unfold bind, self, call, makedirs. cbv zeta.
  induction ss as [|s ss IH]; intros h w h' w' Hrun p.
  - cbn in Hrun. unfold ret in Hrun. simplify_eq. split; [auto|].
    intros [?|(s & Hs & _)]; [done|]. by apply elem_of_nil in Hs.
  - rewrite for_each_cons in Hrun. cbv beta iota in Hrun.
    destruct (bool_decide (_ ∈ dom (files w))); [done|].
    cbv beta iota in Hrun.
    rewrite (IH _ _ _ _ Hrun p). cbn.
    rewrite elem_of_union, elem_of_singleton.
    split.
    + intros [[->|?]|(s' & Hs' & ->)].
      * right. exists s. split; [apply elem_of_cons; by left|done].
      * by left.
      * right. exists s'. split; [apply elem_of_cons; by right|done].
    + intros [?|(s' & [->|Hs']%elem_of_cons & ->)].
      * left. by right.
      * left. by left.
      * right. eauto.
Qed.

(** A successful [_setup_temp_directory]: below the new root there is one
    directory per sensor, and nothing else. *)
Lemma setup_dirs h w h1 w1 :
  _setup_temp_directory h w = (Ok tt, h1, w1) →
  ∃ root,
    h1 = set_temp_dir (Some root) h
    ∧ root ≠ ""
    ∧ root ∈ dirs w1
    ∧ (∀ p, within root p → files w1 !! p = None)
    ∧ (∀ s, s ∈ sensors h → os_path_join root (name s) ∈ dirs w1)
    ∧ (∀ p, p ∈ dirs w1 → within root p →
         p = root ∨ ∃ s, s ∈ sensors h ∧ p = os_path_join root (name s)).
Proof.
  unfold _setup_temp_directory.
  set (w0 := if truthy (temp_dir h) then rmtree (default "" (temp_dir h)) w else w).
  destruct (mkdtemp_runs w0) as (r1 & wk & Hmk & Hp1 & Hf1 & Hl1 & Hr1).
  assert (∀ k : string → M unit,
            (old <- self temp_dir ;;
             (if truthy old then effect (rmtree (default "" old)) else ret tt) ;;
             d <- call (mkdtemp "/dev/shm" "sensor_host_") ;; k d) h w
            = match r1 with
              | Ok d => k d h wk
              | Raise e => (Raise e, h, wk)
              end) as Hhead.
  { intros k. unfold bind, self, call, effect, ret. fold w0.
    destruct (truthy (temp_dir h)); cbn; fold w0; rewrite Hmk; by destruct r1. }
  clearbody w0. rewrite Hhead. clear Hhead.
  destruct r1 as [root|e]; [|done].
  destruct Hr1 as (Hne & Hfresh & Hd1 & Htr1).
  destruct (makedirs_loop_runs (sensors h) (set_temp_dir (Some root) h) wk)
    as (r2 & w2 & made & Hloop & Hp2 & Hf2 & Hd2 & Hl2 & Htr2).
  cbv zeta in Hloop.
  unfold bind at 1. unfold assign at 1.
  unfold bind at 1. unfold self at 1. cbn [sensors set_temp_dir].
  unfold bind at 1. rewrite Hloop.
  destruct r2 as [[]|e]; [|done].
  unfold bind, self, logger, effect. intros [= <- <-].
  pose proof (makedirs_loop_dirs _ _ _ _ _ Hloop) as Hdirs. cbn in Hdirs.
  exists root. split; [done|]. split; [done|]. cbn.
  split; [apply Hdirs; left; rewrite Hd1; set_solver|].
  split; [intros p Hp; rewrite Hf2, Hf1; by eapply not_exists_within|].
  split; [intros s Hs; apply Hdirs; right; eauto|].
  intros p Hp Hw. apply Hdirs in Hp as [Hp|Hp]; [|by right].
  rewrite Hd1 in Hp. apply elem_of_union in Hp as [Hp%elem_of_singleton|Hp];
    [by left|].
  exfalso. unfold os_path_exists in Hfresh. apply bool_decide_eq_false in Hfresh.
  apply Hfresh. exists p. split; [|done]. unfold paths. set_solver.
Qed.

(** A [reconfigure] whose start-up succeeded: the live root holds no file,
    and its directories are the root and one per configured sensor. *)
Lemma reconfigure_dirs base config deps h w r h1 w1 :
  reconfigure base config deps h w = (r, h1, w1) →
  running h1 = true →
  ∃ root,
    temp_dir h1 = Some root
    ∧ root ≠ ""
    ∧ root ∈ dirs w1
    ∧ (∀ p, within root p → files w1 !! p = None)
    ∧ (∀ s, s ∈ sensors h1 → os_path_join root (name s) ∈ dirs w1)
    ∧ (∀ p, p ∈ dirs w1 → within root p →
         p = root ∨ ∃ s, s ∈ sensors h1 ∧ p = os_path_join root (name s)).
Proof.
  intros Hrun Hon.
  destruct (stop_server_runs h w) as (hm & wm & down & Hstop & (Hoff & _) & _).
  destruct (reconfigure_steps base config deps h w hm wm Hstop) as [l Hsteps].
  rewrite Hsteps in Hrun. unfold bind at 1 in Hrun.
  destruct (_setup_temp_directory _ _) as [[r1 h2] w2] eqn:Hsetup.
  destruct r1 as [[]|e].
  - apply setup_dirs in Hsetup as (root & -> & Hne & Hin & Hnone & Hall & Honly).
    apply startup_tail in Hrun as (Hd & Hf & _ & Ht & Hs & _).
    exists root. rewrite Ht, Hs, Hd, Hf. done.
  - exfalso. simplify_eq.
    destruct (setup_temp_directory_runs
                (set_sensors (configured_sensors config deps)
                   (set_refresh_interval (configured_interval config)
                      (set_port (configured_port config) hm)))
                (with_log l wm))
      as (r' & h' & w' & evs & l' & Hsetup' & Hh' & _).
    rewrite Hsetup in Hsetup'. simplify_eq.
    rewrite Hh' in Hon. cbn in Hon. congruence.
Qed.

Lemma append_eq_nil (a b : string) : a +:+ b = "" → a = "" ∧ b = "".
Proof.
  destruct a; [intros H; split; [done|exact H]|].
  rewrite append_cons. discriminate.
Qed.

(** With plain sensor names, the directories a successful setup leaves make
    every sensor publishable: its directory exists, and neither of its two
    files is a directory. *)
Lemma plain_publishable (w : World) root (ss : list Sensor) s :
  root ≠ "" →
  (∀ s', s' ∈ ss → plain_name (name s')) →
  (∀ s', s' ∈ ss → os_path_join root (name s') ∈ dirs w) →
  (∀ p, p ∈ dirs w → within root p →
     p = root ∨ ∃ s', s' ∈ ss ∧ p = os_path_join root (name s')) →
  s ∈ ss →
  publishable w root s.
Proof.
  intros Hroot Hplain Hall Honly Hs.
  destruct (plain_paths root s Hroot (Hplain s Hs)) as (Hd & Ht & Hc & Hdn).
  assert (∀ b, sensor_dir root s +:+ String "/" b ∉ dirs w) as Hfile.
  { intros b Hin.
    assert (within root (sensor_dir root s +:+ String "/" b)) as Hw.
    { right. rewrite Hd, append_assoc. apply prefix_append. }
    destruct (Honly _ Hin Hw) as [Heq|(s' & Hs' & Heq)].
    - destruct (as_dir_extends root) as [t Ht'].
      rewrite Hd, Ht', !append_assoc in Heq. symmetry in Heq.
      apply append_self_inv in Heq.
      apply append_eq_nil in Heq as [_ Heq].
      apply append_eq_nil in Heq as [Hn _].
      by destruct (Hplain s Hs) as (Hne & _).
    - destruct (plain_paths root s' Hroot (Hplain s' Hs')) as (Hd' & _).
      unfold sensor_dir in Hd'. rewrite Hd' in Heq. rewrite Hd, append_assoc in Heq.
      apply append_inv_head in Heq.
      destruct (Hplain s' Hs') as (_ & _ & _ & Hno).
      rewrite <- Heq, contains_slash_app in Hno.
      apply orb_false_iff in Hno as [_ Hno]. cbn in Hno. done. }
  split; [rewrite Hdn; by apply Hall|].
  split; [rewrite Ht|rewrite Hc]; apply Hfile.
Qed.

(** One sensor update, followed through the files: only the sensor's own
    two files can change, and a healthy, publishable sensor ends with its
    text in [current.json]. *)
Lemma update_step_files sensor h w root :
  temp_dir h = Some root →
  ∃ r w',
    _update_sensor_reading sensor h w = (r, h, w')
    ∧ same_resources w w'
    ∧ clock w' = S (clock w)
    ∧ (∀ p, p ≠ temp_file root sensor → p ≠ current_file root sensor →
         files w' !! p = files w !! p)
    ∧ (∀ text, get_readings sensor (clock w) = Ok (JsonOk text) →
         publishable w root sensor →
         files w' !! current_file root sensor = Some text
         ∧ files w' !! temp_file root sensor = None).
Proof.
  intros Hroot.
  pose proof (temp_file_ne_current_file root sensor) as Hne.
  unfold _update_sensor_reading, publishable, same_resources.
  unfold temp_file, current_file in *.
  run. run_fs. rewrite Hroot. cbn.
  repeat (case_match; simplify_eq/=).
  all: eexists _, _; split; [reflexivity|]; cbn.
  all: split; [done|]; split; [done|].
  all: split;
    [intros p Hp1 Hp2;
     rewrite ?lookup_insert_ne, ?lookup_delete_ne, ?lookup_insert_ne by done; done|].
  all: intros text' ? (Hd & Ht & Hc); simplify_eq; debool; try done.
  all: rewrite ?lookup_insert_eq, ?lookup_insert_ne, ?lookup_delete_eq by done.
  all: repeat match goal with
              | H : <[_:=_]> _ !! _ = _ |- _ => rewrite lookup_insert_eq in H
              end.
  all: by simplify_eq.
Qed.

(** A whole poll pass, followed through the files: a file that belongs to
    none of the sensors is untouched, and a healthy sensor whose files no
    later sensor of the pass writes ends with its text in [current.json]. *)
Lemma poll_pass_files h root ss :
  temp_dir h = Some root →
  ∀ w, ∃ w',
    for_each ss (λ sensor,
      try_except (_update_sensor_reading sensor)
        (λ e, logger ERROR ("Failed to update readings for sensor "
                            +:+ name sensor +:+ ": " +:+ str_exn e))) h w
    = (Ok tt, h, w')
    ∧ same_resources w w'
    ∧ (∀ p, (∀ s, s ∈ ss → p ≠ temp_file root s ∧ p ≠ current_file root s) →
         files w' !! p = files w !! p)
    ∧ (∀ i s text,
         ss !! i = Some s →
         get_readings s (clock w + i)%nat = Ok (JsonOk text) →
         publishable w root s →
         (∀ j s', (i < j)%nat → ss !! j = Some s' →
            current_file root s ≠ temp_file root s'
            ∧ current_file root s ≠ current_file root s') →
         files w' !! current_file root s = Some text).
Proof.
  intros Hroot. induction ss as [|s0 ss IH]; intros w.
  - exists w. cbn. unfold ret. split; [done|]. split; [done|]. split; [done|].
    intros i s text Hi. by rewrite lookup_nil in Hi.
  - destruct (update_step_files s0 h w root Hroot)
      as (r & w1 & Hrun & Hres & Hclk & Hframe & Hpub).
    assert (∃ wa,
              try_except (_update_sensor_reading s0)
                (λ e, logger ERROR ("Failed to update readings for sensor "
                                    +:+ name s0 +:+ ": " +:+ str_exn e)) h w
              = (Ok tt, h, wa)
              ∧ files wa = files w1 ∧ same_resources w1 wa
              ∧ clock wa = clock w1) as (wa & Hstep & Hfa & Hra & Hca).
    { unfold try_except. rewrite Hrun. destruct r as [[]|e].
      - by exists w1.
      - rewrite logger_run. by eexists. }
    destruct (IH wa) as (w' & Hrest & Hres' & Hframe' & Hpub').
    exists w'. rewrite for_each_cons, Hstep.
    split; [exact Hrest|].
    split; [eauto using same_resources_trans|].
    split.
    + intros p Hp. rewrite Hframe', Hfa.
      * apply Hframe; apply (Hp s0); apply elem_of_cons; by left.
      * intros s Hs. apply Hp. apply elem_of_cons. by right.
    + intros [|i] s text Hi Hget Hready Hlater.
      * cbn in Hi. injection Hi as <-. rewrite Nat.add_0_r in Hget.
        destruct (Hpub text Hget Hready) as [Hcur _].
        rewrite Hframe', Hfa; [done|].
        intros s' [j Hj]%list_elem_of_lookup.
        apply (Hlater (S j) s'); [lia|done].
      * cbn in Hi. apply (Hpub' i s text Hi).
        -- rewrite Hca, Hclk. by replace (S (clock w) + i)%nat with (clock w + S i)%nat by lia.
        -- eapply publishable_same; [|exact Hready].
           eauto using same_resources_trans.
        -- intros j s' Hij Hj. apply (Hlater (S j) s'); [lia|done].
Qed.

(** ** What a successful [reconfigure] leaves on disk *)

(** After a [reconfigure] whose start-up succeeded ([running] is true,
    however the framework's closing call ended), the root directory the
    instance names exists, holds no file yet, and has a directory for every
    sensor the instance keeps. *)
Theorem reconfigure_creates_sensor_directories base config deps h w r h1 w1 :
  reconfigure base config deps h w = (r, h1, w1) →
  running h1 = true →
  ∃ root,
    temp_dir h1 = Some root
    ∧ root ∈ dirs w1
    ∧ (∀ sensor, sensor ∈ sensors h1 → sensor_dir root sensor ∈ dirs w1)
    ∧ (∀ p, within root p → files w1 !! p = None).
Proof.
  intros Hrun Hon.
  destruct (reconfigure_dirs _ _ _ _ _ _ _ _ Hrun Hon)
    as (root & Hroot & _ & Hin & Hnone & Hall & _).
  by exists root.
Qed.

Lemma reconfigure_creates_sensor_directories_witness :
  reconfigure demo_base (demo_config 8090%Q) demo_deps __init__ demo_world
  = (demo_base, demo_host, demo_live)
  ∧ running demo_host = true
  ∧ "/dev/shm/sensor_host_tq3x9k2a/temp1" ∈ dirs demo_live.
Proof.
  assert (reconfigure demo_base (demo_config 8090%Q) demo_deps __init__ demo_world
          = (demo_base, demo_host, demo_live)) as Hrun by (vm_compute; reflexivity).
  assert (running demo_host = true) as Hon by (vm_compute; reflexivity).
  split; [exact Hrun|]. split; [exact Hon|].
  destruct (reconfigure_creates_sensor_directories _ _ _ _ _ _ _ _ Hrun Hon)
    as (root & Hroot & _ & Hall & _).
  assert (root = "/dev/shm/sensor_host_tq3x9k2a") as ->
    by (vm_compute in Hroot; congruence).
  assert (sensors demo_host = [temp2; temp1]) as Hss by (vm_compute; reflexivity).
  apply (Hall temp1). rewrite Hss.
  apply elem_of_cons. right. apply elem_of_cons. by left.
Defined.

(** After a [reconfigure] whose start-up succeeded ([running] is true,
    however the framework's closing call ended) and whose sensors have plain
    names, a poll pass publishes: every sensor whose fetch succeeds, and whose name no
    later sensor of the list shares, ends the pass with its JSON text in its
    [current.json]; the directories stay as they were, and files other than
    the sensors' own [next.json] and [current.json] are untouched. *)
Theorem first_refresh_publishes base config deps h w r h1 w1 :
  reconfigure base config deps h w = (r, h1, w1) →
  running h1 = true →
  (∀ sensor, sensor ∈ sensors h1 → plain_name (name sensor)) →
  ∃ root w2,
    temp_dir h1 = Some root
    ∧ _update_all_sensor_readings h1 w1 = (Ok tt, h1, w2)
    ∧ dirs w2 = dirs w1
    ∧ (∀ i sensor text,
         sensors h1 !! i = Some sensor →
         get_readings sensor (clock w1 + i)%nat = Ok (JsonOk text) →
         (∀ j later, (i < j)%nat → sensors h1 !! j = Some later →
            name later ≠ name sensor) →
         files w2 !! current_file root sensor = Some text)
    ∧ (∀ p, (∀ sensor, sensor ∈ sensors h1 →
               p ≠ temp_file root sensor ∧ p ≠ current_file root sensor) →
         files w2 !! p = files w1 !! p).
Proof.
  intros Hrun Hon Hplain.
  destruct (reconfigure_dirs _ _ _ _ _ _ _ _ Hrun Hon)
    as (root & Hroot & Hne & Hin & Hnone & Hall & Honly).
  destruct (poll_pass_files h1 root (sensors h1) Hroot w1)
    as (w2 & Hpass & (Hd & _) & Hframe & Hpub).
  exists root, w2. split; [done|].
  split; [unfold _update_all_sensor_readings, bind, self; by rewrite Hpass|].
  split; [done|]. split; [|done].
  intros i s text Hi Hget Hlater.
  assert (s ∈ sensors h1) as Hs by (apply list_elem_of_lookup; eauto).
  apply (Hpub i s text Hi Hget).
  - by apply (plain_publishable w1 root (sensors h1)).
  - intros j s' Hij Hj.
    assert (s' ∈ sensors h1) as Hs' by (apply list_elem_of_lookup; eauto).
    destruct (plain_paths_apart root s' s Hne (Hplain _ Hs') (Hplain _ Hs))
      as [Htc Hcc].
    split; [by apply not_eq_sym|].
    apply not_eq_sym. apply Hcc. by eapply Hlater.
Qed.

Lemma first_refresh_publishes_witness :
  reconfigure demo_base (demo_config 8090%Q) demo_deps __init__ demo_world
  = (demo_base, demo_host, demo_live)
  ∧ running demo_host = true
  ∧ ∃ w2,
      _update_all_sensor_readings demo_host demo_live = (Ok tt, demo_host, w2)
      ∧ files w2 !! "/dev/shm/sensor_host_tq3x9k2a/temp1/current.json" = Some "{}".
Proof.
  assert (∀ sensor, sensor ∈ [temp2; temp1] → plain_name (name sensor)) as Hplain.
  { intros sensor Hin.
    apply elem_of_cons in Hin as [Heq|Hin].
    { rewrite Heq. vm_compute. repeat split; first [reflexivity | discriminate]. }
    apply elem_of_cons in Hin as [Heq|Hin].
    { rewrite Heq. vm_compute. repeat split; first [reflexivity | discriminate]. }
    apply elem_of_nil in Hin. destruct Hin. }
  assert (sensors demo_host = [temp2; temp1]) as Hss by (vm_compute; reflexivity).
  rewrite <- Hss in Hplain.
  assert (reconfigure demo_base (demo_config 8090%Q) demo_deps __init__ demo_world
          = (demo_base, demo_host, demo_live)) as Hrun by (vm_compute; reflexivity).
  assert (running demo_host = true) as Hon by (vm_compute; reflexivity).
  split; [exact Hrun|]. split; [exact Hon|].
  destruct (first_refresh_publishes _ _ _ _ _ _ _ _ Hrun Hon Hplain)
    as (root & w2 & Hroot & Hpass & _ & Hpub & _).
  assert (root = "/dev/shm/sensor_host_tq3x9k2a") as ->
    by (vm_compute in Hroot; congruence).
  exists w2. split; [exact Hpass|].
  apply (Hpub 1%nat temp1 "{}").
  - rewrite Hss. reflexivity.
  - reflexivity.
  - intros j later Hij Hj. rewrite Hss in Hj.
    destruct j as [|[|j]]; [exfalso; clear - Hij; lia..|].
    cbn in Hj. discriminate Hj.
Defined.
